(** * MessagingUtilities: the three senders and their outcomes

    A shallow embedding of [MessagingUtilities.go] (package
    [messagingutilities]) and of the second version of that file which
    the repository carries, whose Africa's Talking sender posts a form
    instead of JSON and inspects the recipient list instead of the status
    text (module [Variant] below).

    Go pointers are [option]s; dereferencing [nil] is a run-time panic.
    Every sender is a computation that yields an outcome (the returned
    [error], [nil] being [None], or a panic) together with the trace of
    the calls it made on the outside world: the HTTP round trip, the reads
    and the release of the response body, the Twilio request, the SMTP
    dial.  The libraries the senders call (net/http, encoding/json,
    net/url, twilio-go, gomail) are not part of the repository; what they
    answer is a field of the [World] the sender runs in.  Of gomail, what
    it makes of an attachment is written out: the name it keeps and the
    encoding of the bytes in the mail. *)

From Stdlib Require Import ZArith Lia ZifyNat Ascii String DecimalString.
From Stdlib.Strings Require Import Byte.
From stdpp Require Import base option list strings gmap.

Local Open Scope string_scope.
Local Open Scope Z_scope.

(** ** Go values *)

(** A double quote, for texts that carry one. *)
Definition dquote : string := String (ascii_of_nat 34) EmptyString.

(** [[]byte]. *)
Abbreviation bytes := (list Byte.byte).

(** [string(b)] for a byte slice [b], and [[]byte(s)]. *)
Definition string_of_bytes (b : bytes) : string := string_of_list_byte b.
Definition bytes_of_string (s : string) : bytes := list_byte_of_string s.

(** [error] values: [errors.New]/[fmt.Errorf] without [%w] give an
    [errorString], [fmt.Errorf] with one [%w] gives a [wrapError] that keeps
    the formatted text and the wrapped cause, and [strconv] reports a
    [NumError] that carries the offending input in [Num]. *)
Inductive error : Type :=
| errorString (s : string)
| wrapError (msg : string) (err : error)
| NumError (Func Num : string) (Err : error).

(** The result of running Go code that may panic. *)
Inductive outcome (A : Type) : Type :=
| Returned (a : A)
| Panicked.
Arguments Returned {A} a.
Arguments Panicked {A}.

(** ** Package [strings] *)
Module strings.

(** [strings.HasPrefix(s, prefix)]. *)
Fixpoint HasPrefix (s prefix : string) : bool :=
  match prefix, s with
  | EmptyString, _ => true
  | String _ _, EmptyString => false
  | String p prefix', String c s' => Ascii.eqb c p && HasPrefix s' prefix'
  end.

(** [strings.Contains(s, substr)]: [substr] occurs in [s] at some offset. *)
Fixpoint Contains (s substr : string) : bool :=
  HasPrefix s substr ||
  match s with
  | EmptyString => false
  | String _ s' => Contains s' substr
  end.

(** [strings.Compare(a, b)]: -1, 0 or 1, bytes compared as unsigned. *)
Definition Compare (a b : string) : Z :=
  match String.compare a b with
  | Lt => -1
  | Eq => 0
  | Gt => 1
  end.

End strings.

(** ** Package [strconv] *)
Module strconv.

Definition ErrSyntax : error := errorString "invalid syntax".
Definition ErrRange : error := errorString "value out of range".

(** The value of a decimal digit; [None] for any other byte. *)
Definition digit (c : ascii) : option Z :=
  let n := Z.of_N (N_of_ascii c) in
  if (48 <=? n) && (n <=? 57) then Some (n - 48) else None.

Definition maxUint64 : Z := 2 ^ 64 - 1.

(** The loop of [ParseUint(s, 10, 64)] over the bytes that are left, with
    [n] read so far: a byte that is no digit is a syntax error, a value
    that leaves [uint64] a range error, whichever the scan meets first. *)
Fixpoint scan (n : Z) (s : string) : error + Z :=
  match s with
  | EmptyString => inr n
  | String c s' =>
      match digit c with
      | None => inl ErrSyntax
      | Some d =>
          if maxUint64 / 10 + 1 <=? n then inl ErrRange
          else if maxUint64 <? n * 10 + d then inl ErrRange
          else scan (n * 10 + d) s'
      end
  end.

(** [ParseUint(s, 10, 64)], as the cause of its error or its value. *)
Definition ParseUint (s : string) : error + Z :=
  match s with
  | EmptyString => inl ErrSyntax
  | _ => scan 0 s
  end.

(** [ParseInt(s, 10, 0)] for the 64-bit [int], likewise: an optional
    sign, then [ParseUint], then the bounds of [int64]. *)
Definition ParseInt (s : string) : error + Z :=
  match s with
  | EmptyString => inl ErrSyntax
  | _ =>
      let '(neg, digits) :=
        match s with
        | String "+" r => (false, r)
        | String "-" r => (true, r)
        | _ => (false, s)
        end in
      match ParseUint digits with
      | inl cause => inl cause
      | inr un =>
          let cutoff := 2 ^ 63 in
          if negb neg && (cutoff <=? un) then inl ErrRange
          else if neg && (cutoff <? un) then inl ErrRange
          else inr (if neg then - un else un)
      end
  end.

(** [strconv.Atoi(s)]: the value, or a [*NumError] for function [Atoi]
    whose [Num] is [s].  (The fast path that [Atoi] takes on short inputs
    gives what [ParseInt] gives on them.) *)
Definition Atoi (s : string) : error + Z :=
  match ParseInt s with
  | inl cause => inl (NumError "Atoi" s cause)
  | inr n => inr n
  end.

End strconv.

(** ** Package [fmt] *)
Module fmt.

(** The [%d] verb on an [int]. *)
Definition d (z : Z) : string := NilZero.string_of_int (Z.to_int z).

(** An operand of a formatting call. *)
Inductive arg : Type :=
| Str (s : string)
| Int (z : Z)
| Err (e : error).

Section Text.
(** [strconv.Quote], which [*NumError] uses to print its input. *)
Variable Quote : string -> string.

(** The [Error()] method. *)
Fixpoint Error (e : error) : string :=
  match e with
  | errorString s => s
  | wrapError msg _ => msg
  | NumError f num err =>
      "strconv." +:+ f +:+ ": parsing " +:+ Quote num +:+ ": " +:+ Error err
  end.

(** One verb applied to one operand.  The senders apply [%s] to a
    string, [%d] to an [int] and [%w] to an error; [%v] and, on an error,
    [%s] print the same.  For any other pairing the text here only records
    the mismatch. *)
Definition verb (v : ascii) (a : arg) : string :=
  match v, a with
  | ("s" | "v")%char, Str s => s
  | ("d" | "v")%char, Int z => d z
  | ("w" | "v" | "s")%char, Err e => Error e
  | _, _ => "%!" +:+ String v "(BADVERB)"
  end.

(** [fmt.Sprintf(format, args...)], for formats of plain text, [%%] and
    one-letter verbs, with no operand left over. *)
Fixpoint Sprintf (format : string) (args : list arg) : string :=
  match format with
  | EmptyString => EmptyString
  | String "%" EmptyString => "%!(NOVERB)"
  | String "%" (String "%" rest) => String "%" (Sprintf rest args)
  | String "%" (String v rest) =>
      match args with
      | a :: args' => verb v a +:+ Sprintf rest args'
      | [] => "%!" +:+ String v "(MISSING)" +:+ Sprintf rest []
      end
  | String c rest => String c (Sprintf rest args)
  end.

(** The operand a [%w] verb of the format is applied to, if any. *)
Fixpoint wrapped (format : string) (args : list arg) : option error :=
  match format with
  | EmptyString => None
  | String "%" EmptyString => None
  | String "%" (String "%" rest) => wrapped rest args
  | String "%" (String v rest) =>
      match args with
      | a :: args' =>
          match v, a with
          | "w"%char, Err e => Some e
          | _, _ => wrapped rest args'
          end
      | [] => None
      end
  | String _ rest => wrapped rest args
  end.

(** [fmt.Errorf(format, args...)]: the error wraps the operand of [%w]
    when the format has one. *)
Definition Errorf (format : string) (args : list arg) : error :=
  match wrapped format args with
  | Some e => wrapError (Sprintf format args) e
  | None => errorString (Sprintf format args)
  end.
End Text.

End fmt.

(** ** Package [io] *)

(** An [io.Reader] that has not been read yet: the bytes it will deliver,
    and how it ends ([None] for [io.EOF], or a read error). *)
Record Reader : Type := { delivered : bytes; failure : option error }.

Module io.

(** [io.ReadAll(r)]: everything read up to the end or the error. *)
Definition ReadAll (r : Reader) : bytes * option error :=
  (delivered r, failure r).

(** [io.Copy(w, r)] on a writer that holds [w] so far: the writer
    afterwards, the count of bytes copied and the error. *)
Definition Copy (w : bytes) (r : Reader) : bytes * (Z * option error) :=
  ((w ++ delivered r)%list, (Z.of_nat (length (delivered r)), failure r)).

End io.

(** [bytes.NewBuffer(b)] and [strings.NewReader(s)] as readers. *)
Definition NewBuffer (b : bytes) : Reader := {| delivered := b; failure := None |}.
Definition NewReader (s : string) : Reader := NewBuffer (bytes_of_string s).

(** ** Package [net/http] *)
Module http.

Definition StatusOK : Z := 200.
Definition StatusCreated : Z := 201.

Record Request : Type := {
  Method : string;
  URL : string;
  Header : gmap string (list string);
  ReqBody : Reader
}.

Record Response : Type := {
  StatusCode : Z;
  Body : Reader
}.

(** [req.Header.Set(key, value)]; [canon] is
    [textproto.CanonicalMIMEHeaderKey]. *)
Definition Header_Set (canon : string -> string) (key value : string)
    (req : Request) : Request :=
  {| Method := Method req; URL := URL req;
     Header := <[canon key := [value]]> (Header req);
     ReqBody := ReqBody req |}.

End http.

(** ** Package [path/filepath], where the separator is the slash *)
Module filepath.

(** A path without its trailing separators; empty when it holds nothing
    else. *)
Fixpoint stripTrailing (path : string) : string :=
  match path with
  | EmptyString => EmptyString
  | String c rest =>
      match stripTrailing rest with
      | EmptyString => if Ascii.eqb c "/" then EmptyString else String c EmptyString
      | String d kept => String c (String d kept)
      end
  end.

(** What follows the last separator of a path; the whole path when it has
    none. *)
Fixpoint lastElement (path : string) : string :=
  match path with
  | EmptyString => EmptyString
  | String c rest =>
      if strings.Contains rest "/" then lastElement rest
      else if Ascii.eqb c "/" then rest
      else String c rest
  end.

(** [filepath.Base(path)]: the last element of the path, trailing
    separators apart; "." for the empty path, "/" for a path of
    separators only. *)
Definition Base (path : string) : string :=
  match path with
  | EmptyString => "."
  | _ =>
      match lastElement (stripTrailing path) with
      | EmptyString => "/"
      | element => element
      end
  end.

End filepath.

(** ** Package [encoding/base64] *)
Module base64.

(** The alphabet of [base64.StdEncoding] and its padding byte. *)
Definition encodeStd : string :=
  "ABCDEFGHIJKLMNOPQRSTUVWXYZabcdefghijklmnopqrstuvwxyz0123456789+/".

Definition alphabet : bytes := bytes_of_string encodeStd.

Definition pad : Byte.byte := x3d.

(** The byte that stands for six bits, and the six bits a byte of the
    alphabet stands for. *)
Definition char (n : nat) : Byte.byte := nth n alphabet x41.

Fixpoint indexIn (c : Byte.byte) (l : bytes) (i : nat) : option nat :=
  match l with
  | [] => None
  | d :: l' => if Byte.eqb c d then Some i else indexIn c l' (S i)
  end.

Definition index (c : Byte.byte) : option nat := indexIn c alphabet 0.

Definition byteOf (n : nat) : Byte.byte := default x00 (Byte.of_nat n).

(** What an encoder of [StdEncoding] has written once it is closed, for
    all the bytes [src] written to it: four bytes of the alphabet for
    three of the source, the last group padded. *)
Fixpoint Encode (src : bytes) : bytes :=
  match src with
  | [] => []
  | [a] =>
      let a := Byte.to_nat a in
      [char (a / 4); char (a mod 4 * 16); pad; pad]
  | [a; b] =>
      let a := Byte.to_nat a in
      let b := Byte.to_nat b in
      [char (a / 4); char (a mod 4 * 16 + b / 16); char (b mod 16 * 4); pad]
  | a :: b :: c :: rest =>
      let a := Byte.to_nat a in
      let b := Byte.to_nat b in
      let c := Byte.to_nat c in
      char (a / 4) :: char (a mod 4 * 16 + b / 16)
        :: char (b mod 16 * 4 + c / 64) :: char (c mod 64) :: Encode rest
  end%nat.

(** The decoding a reader of the mail applies: groups of four bytes of
    the alphabet, the last one possibly padded; [None] for any other
    text. *)
Fixpoint Decode (text : bytes) : option bytes :=
  match text with
  | [] => Some []
  | c1 :: c2 :: c3 :: c4 :: rest =>
      match index c1, index c2 with
      | Some s1, Some s2 =>
          if Byte.eqb c3 pad then
            if Byte.eqb c4 pad then
              match rest with
              | [] => Some [byteOf (s1 * 4 + s2 / 16)]
              | _ => None
              end
            else None
          else
            match index c3 with
            | Some s3 =>
                if Byte.eqb c4 pad then
                  match rest with
                  | [] => Some [byteOf (s1 * 4 + s2 / 16); byteOf (s2 mod 16 * 16 + s3 / 4)]
                  | _ => None
                  end
                else
                  match index c4, Decode rest with
                  | Some s4, Some more =>
                      Some (byteOf (s1 * 4 + s2 / 16) :: byteOf (s2 mod 16 * 16 + s3 / 4)
                              :: byteOf (s3 mod 4 * 64 + s4) :: more)
                  | _, _ => None
                  end
            | None => None
            end
      | _, _ => None
      end
  | _ => None
  end%nat.

End base64.

(** ** Package [gomail]: the message as the sender drives it *)
Module gomail.

(** A [gomail.FileSetting] the sender passes to [Attach]. *)
Inductive FileSetting : Type :=
| SetHeader (h : gmap string (list string))
| SetCopyFunc (f : bytes -> bytes * option error).

(** A file that [Attach] appends to the message: the name gomail keeps
    for it, and the settings passed, which gomail applies in order. *)
Record attachment : Type := {
  Name : string;
  settings : list FileSetting
}.

(** A [*gomail.Message]: the header fields set, the body set and the
    attachments requested so far. *)
Record Message : Type := {
  header : gmap string (list string);
  body : option (string * string);
  attachments : list attachment
}.

Definition NewMessage : Message :=
  {| header := ∅; body := None; attachments := [] |}.

Definition Message_SetHeader (field : string) (value : list string)
    (m : Message) : Message :=
  {| header := <[field := value]> (header m); body := body m;
     attachments := attachments m |}.

Definition Message_SetBody (contentType text : string) (m : Message) : Message :=
  {| header := header m; body := Some (contentType, text);
     attachments := attachments m |}.

(** [m.Attach(name, settings...)]: the file is kept under the base of
    the name passed. *)
Definition Message_Attach (name : string) (ss : list FileSetting)
    (m : Message) : Message :=
  {| header := header m; body := body m;
     attachments :=
       (attachments m ++ [{| Name := filepath.Base name; settings := ss |}])%list |}.

(** The writer that breaks the encoded text into lines: with [lineLen]
    bytes on the current line, a byte that would be the 77th is preceded
    by CR LF. *)
Fixpoint lineWriter (lineLen : nat) (p : bytes) : bytes :=
  match p with
  | [] => []
  | c :: rest =>
      if (lineLen <? 76)%nat then c :: lineWriter (S lineLen) rest
      else x0d :: x0a :: c :: lineWriter 1 rest
  end.

(** The body of an attachment in the mail: what the copy function writes,
    encoded in base64 and broken into lines; and the error of the copy
    function. *)
Definition writeBody (f : bytes -> bytes * option error) : bytes * option error :=
  let '(written, err) := f [] in (lineWriter 0 (base64.Encode written), err).

Definition isLineBreak (c : Byte.byte) : bool := Byte.eqb c x0d || Byte.eqb c x0a.

(** The bytes a reader of the mail gets from such a body: the line breaks
    dropped, the rest decoded. *)
Definition readBack (text : bytes) : option bytes :=
  base64.Decode (filter (fun c => isLineBreak c = false) text).

(** [gomail.NewDialer(host, port, username, password)]. *)
Record Dialer : Type := {
  Host : string;
  Port : Z;
  Username : string;
  Password : string
}.

Definition NewDialer (host : string) (port : Z) (username password : string) : Dialer :=
  {| Host := host; Port := port; Username := username; Password := password |}.

End gomail.

(** ** Package [twilio] *)
Module twilio.

Record ClientParams : Type := { Username : string; Password : string }.

Record RestClient : Type := { params : ClientParams }.

Definition NewRestClientWithParams (p : ClientParams) : RestClient :=
  {| params := p |}.

(** [TWILIO_API.CreateMessageParams], of which the sender sets three
    fields. *)
Record CreateMessageParams : Type := {
  Body : option string;
  From : option string;
  To : option string
}.

Definition NoParams : CreateMessageParams :=
  {| Body := None; From := None; To := None |}.

Definition SetBody (s : string) (p : CreateMessageParams) : CreateMessageParams :=
  {| Body := Some s; From := From p; To := To p |}.
Definition SetFrom (s : string) (p : CreateMessageParams) : CreateMessageParams :=
  {| Body := Body p; From := Some s; To := To p |}.
Definition SetTo (s : string) (p : CreateMessageParams) : CreateMessageParams :=
  {| Body := Body p; From := From p; To := Some s |}.

End twilio.

(** ** The types of the package *)

Record SMTPCredentials : Type := {
  Host : string;
  Port : string;
  User : string;
  Sender : string;
  Password : string;
  UseTLS : bool
}.

Record EmailAttachment : Type := {
  Data : Reader;
  Name : option string
}.

Record TwilioCredentials : Type := {
  AccountSID : string;
  AuthToken : string;
  SenderPhoneNumber : string;
  SenderName : string
}.

Record AfricasTalkingCredentials : Type := {
  ApiKey : string;
  Username : string;
  SenderID : string
}.

(** [atSmsRequest]; its four fields carry the struct's name here, since
    [Username] and [Message] are fields of other structs too. *)
Record atSmsRequest : Type := {
  atSmsRequest_Username : string;
  atSmsRequest_To : string;
  atSmsRequest_Message : string;
  atSmsRequest_From : string
}.

(** [atSmsResponse] and the struct of its field [SMSMessageData]. *)
Record atSmsMessageData : Type := { Message : string }.
Record atSmsResponse : Type := { SMSMessageData : atSmsMessageData }.

(** ** The outside world *)

(** What the libraries answer.  Each field is one library call of the
    senders; a sender makes each call at most once, so a function of the
    call's operands describes any run. *)
Record World : Type := {
  strconv_Quote : string -> string;
  textproto_CanonicalMIMEHeaderKey : string -> string;
  http_NewRequest : string -> string -> Reader -> error + http.Request;
  http_Client_Do : http.Request -> error + http.Response;
  twilio_CreateMessage : twilio.RestClient -> twilio.CreateMessageParams -> option error;
  gomail_DialAndSend : gomail.Dialer -> gomail.Message -> option error
}.

(** [encoding/json] on the two structs of [MessagingUtilities.go]. *)
Record Wire : Type := {
  json_Marshal : atSmsRequest -> error + bytes;
  json_Decode : Reader -> error + atSmsResponse
}.

(** The calls a sender makes on the world, in the order it makes them.
    [HttpDo], [TwilioCreateMessage] and [SmtpDialAndSend] go to the network;
    the three [Body] events read and release the response stream. *)
Inductive event : Type :=
| HttpDo (req : http.Request) (res : error + http.Response)
| BodyReadAll (resp : http.Response)
| BodyDecode (resp : http.Response)
| BodyClose (resp : http.Response)
| TwilioCreateMessage (client : twilio.RestClient) (p : twilio.CreateMessageParams)
| SmtpDialAndSend (dialer : gomail.Dialer) (m : gomail.Message).

Definition is_network_call (e : event) : bool :=
  match e with
  | HttpDo _ _ | TwilioCreateMessage _ _ | SmtpDialAndSend _ _ => true
  | BodyReadAll _ | BodyDecode _ | BodyClose _ => false
  end.

Definition is_close (e : event) : bool :=
  match e with
  | BodyClose _ => true
  | _ => false
  end.

(** The number of network calls in a trace. *)
Definition network_calls (t : list event) : nat :=
  length (filter (fun e => is_network_call e = true) t).

(** ** Computations *)

(** A run: how it ended and what it did. *)
Definition M (A : Type) : Type := outcome A * list event.

#[export] Instance M_ret : MRet M := fun A a => (Returned a, []).

#[export] Instance M_bind : MBind M := fun A B f m =>
  match m with
  | (Returned a, t) => let '(o, t') := f a in (o, (t ++ t')%list)
  | (Panicked, t) => (Panicked, t)
  end.

(** [*p]: a nil pointer dereference panics. *)
Definition deref {A : Type} (p : option A) : M A :=
  match p with
  | Some a => mret a
  | None => (Panicked, [])
  end.

(** A call on the world that answers [a]. *)
Definition call {A : Type} (e : event) (a : A) : M A := (Returned a, [e]).

(** [defer cleanup] followed by [rest]: the cleanup runs when the function
    leaves, whether [rest] returned or panicked. *)
Definition defer {A : Type} (cleanup : M unit) (rest : M A) : M A :=
  let '(o, t) := rest in (o, (t ++ cleanup.2)%list).

Definition result {A : Type} (m : M A) : outcome A := m.1.
Definition trace {A : Type} (m : M A) : list event := m.2.

(** ** [SendSMTPEmailMessage] *)

(** The copy function of one attachment: [io.Copy(w, reader.Data)], of
    which only the error is kept.  (With go 1.25 each iteration of the
    loop has its own [reader].) *)
Definition copyFunc (reader : EmailAttachment) (w : bytes) : bytes * option error :=
  let '(w', (_, err)) := io.Copy w (Data reader) in (w', err).

(** The loop [for _, reader := range *attachments]. *)
Fixpoint attachEach (attachments : list EmailAttachment) (message_ : gomail.Message)
    : M gomail.Message :=
  match attachments with
  | [] => mret message_
  | reader :: more =>
      name ← deref (Name reader);
      attachEach more
        (gomail.Message_Attach name
           [gomail.SetHeader {[ "Content-Type" := ["application/octet-stream"] ]};
            gomail.SetCopyFunc (copyFunc reader)]
           message_)
  end.

(** Lines 41 to 70, for credentials [c] that are there: the message,
    built before the port is looked at. *)
Definition buildMessage (c : SMTPCredentials)
    (subject message : option string) (isHtml : bool)
    (attachments : option (list EmailAttachment))
    (receivers : option (list string)) : M gomail.Message :=
  let message_ := gomail.NewMessage in
  let message_ := gomail.Message_SetHeader "From" [Sender c] message_ in
  to ← deref receivers;
  let message_ := gomail.Message_SetHeader "To" to message_ in
  let message_ :=
    match subject with
    | Some s => gomail.Message_SetHeader "Subject" [s] message_
    | None => message_
    end in
  let mimeType := if isHtml then "text/html" else "text/plain" in
  let message_ :=
    match message with
    | Some text => gomail.Message_SetBody mimeType text message_
    | None => message_
    end in
  match attachments with
  | Some l => attachEach l message_
  | None => mret message_
  end.

Definition SendSMTPEmailMessage (w : World) (credentials : option SMTPCredentials)
    (subject message : option string) (isHtml : bool)
    (attachments : option (list EmailAttachment))
    (receivers : option (list string)) : M (option error) :=
  c ← deref credentials;
  message_ ← buildMessage c subject message isHtml attachments receivers;
  match strconv.Atoi (Port c) with
  | inl err =>
      mret (Some (fmt.Errorf (strconv_Quote w) "Invalid port number: %w" [fmt.Err err]))
  | inr port =>
      let dialer := gomail.NewDialer (Host c) port (User c) (Password c) in
      (* if credentials.UseTLS { } has an empty body *)
      call (SmtpDialAndSend dialer message_) (gomail_DialAndSend w dialer message_)
  end.

(** ** [SendTwilioSmsMessage] *)

Definition SendTwilioSmsMessage (w : World) (credentials : option TwilioCredentials)
    (message receiver : option string) : M (option error) :=
  c ← deref credentials;
  let client := twilio.NewRestClientWithParams
    {| twilio.Username := AccountSID c; twilio.Password := AuthToken c |} in
  if decide (message = None) then
    mret (Some (fmt.Errorf (strconv_Quote w)
                  "Message body and receivers cannot be empty" []))
  else
    let params := twilio.NoParams in
    body ← deref message;
    let params := twilio.SetBody body params in
    let params := twilio.SetFrom (SenderPhoneNumber c) params in
    to ← deref receiver;
    let params := twilio.SetTo to params in
    call (TwilioCreateMessage client params) (twilio_CreateMessage w client params).

(** ** [SendAfricasTalkingSmsMessage] *)

(** Everything after [defer resp.Body.Close()], lines 182 to 204. *)
Definition interpretResponse (w : World) (x : Wire) (resp : http.Response)
    : M (option error) :=
  if bool_decide (http.StatusCode resp ≠ http.StatusCreated)
     && bool_decide (http.StatusCode resp ≠ http.StatusOK) then
    '(bodyBytes, _) ← call (BodyReadAll resp) (io.ReadAll (http.Body resp));
    mret (Some (fmt.Errorf (strconv_Quote w)
      "Africa's talking API failed with status %d. Response body: %s"
      [fmt.Int (http.StatusCode resp); fmt.Str (string_of_bytes bodyBytes)]))
  else
    decoded ← call (BodyDecode resp) (json_Decode x (http.Body resp));
    match decoded with
    | inl err =>
        mret (Some (fmt.Errorf (strconv_Quote w)
          "Successfully sent, but failed to parse response: %w" [fmt.Err err]))
    | inr atResp =>
        if strings.Contains (Message (SMSMessageData atResp)) "Total Cost: KES 0.00" then
          mret (Some (fmt.Errorf (strconv_Quote w)
            "africa's talking send likely failed. Check API key/username. Response: %s"
            [fmt.Str (Message (SMSMessageData atResp))]))
        else
          mret None
    end.

Definition SendAfricasTalkingSmsMessage (w : World) (x : Wire)
    (credentials : option AfricasTalkingCredentials)
    (message receiver : option string) : M (option error) :=
  if decide (message = None) then
    mret (Some (fmt.Errorf (strconv_Quote w) "Message body cannot be empty" []))
  else
    let baseURL := "https://api.africastalking.com" in
    let url := baseURL +:+ "/version1/messaging" in
    c ← deref credentials;
    to ← deref receiver;
    text ← deref message;
    let payload :=
      {| atSmsRequest_Username := Username c;
         atSmsRequest_To := to;
         atSmsRequest_Message := text;
         atSmsRequest_From := SenderID c |} in
    match json_Marshal x payload with
    | inl err =>
        mret (Some (fmt.Errorf (strconv_Quote w)
          "Failed to marshal JSON payload: %w" [fmt.Err err]))
    | inr jsonPayload =>
        match http_NewRequest w "POST" url (NewBuffer jsonPayload) with
        | inl err =>
            mret (Some (fmt.Errorf (strconv_Quote w)
              "Failed to create http request: %w" [fmt.Err err]))
        | inr request =>
            let set := http.Header_Set (textproto_CanonicalMIMEHeaderKey w) in
            let request := set "Content-Type" "application/json" request in
            let request := set "Accept" "application/json" request in
            let request := set "apiKey" (ApiKey c) request in
            let answer := http_Client_Do w request in
            answered ← call (HttpDo request answer) answer;
            match answered with
            | inl err =>
                mret (Some (fmt.Errorf (strconv_Quote w)
                  "Failed to execute http request: %w" [fmt.Err err]))
            | inr resp =>
                defer (call (BodyClose resp) ()) (interpretResponse w x resp)
            end
        end
    end.

(** ** The second version of the file *)

(** Its SMTP and Twilio senders are those above, line for line; its
    Africa's Talking sender differs. *)
Module Variant.

Record atSmsResponseRecipient : Type := { status : string }.

Record atSmsMessageData : Type := {
  Message : string;
  Recipients : list atSmsResponseRecipient
}.

Record atSmsResponse : Type := { SMSMessageData : atSmsMessageData }.

(** [net/url] and [encoding/json] on this version's payload and struct. *)
Record Wire : Type := {
  url_Values_Encode : gmap string (list string) -> string;
  json_Decode : Reader -> error + atSmsResponse
}.

(** [url.Values.Set(key, value)]. *)
Definition Values_Set (key value : string) (v : gmap string (list string))
    : gmap string (list string) :=
  <[key := [value]]> v.

(** The loop [for _, atResp_ := range atResp.SMSMessageData.Recipients]. *)
Fixpoint checkRecipients (w : World) (recipients : list atSmsResponseRecipient)
    : option error :=
  match recipients with
  | [] => None
  | atResp_ :: more =>
      if bool_decide (strings.Compare EmptyString (status atResp_) ≠ 0) then
        Some (fmt.Errorf (strconv_Quote w) "Message could not be sent" [])
      else checkRecipients w more
  end.

(** Everything after [defer resp.Body.Close()], lines 177 to 202. *)
Definition interpretResponse (w : World) (x : Wire) (resp : http.Response)
    : M (option error) :=
  if bool_decide (http.StatusCode resp ≠ http.StatusCreated)
     && bool_decide (http.StatusCode resp ≠ http.StatusOK) then
    '(bodyBytes, _) ← call (BodyReadAll resp) (io.ReadAll (http.Body resp));
    mret (Some (fmt.Errorf (strconv_Quote w)
      "Africa's talking API failed with status %d. Response body: %s"
      [fmt.Int (http.StatusCode resp); fmt.Str (string_of_bytes bodyBytes)]))
  else
    decoded ← call (BodyDecode resp) (json_Decode x (http.Body resp));
    match decoded with
    | inl err =>
        mret (Some (fmt.Errorf (strconv_Quote w)
          "Successfully sent, but failed to parse response: %w" [fmt.Err err]))
    | inr atResp =>
        if bool_decide (length (Recipients (SMSMessageData atResp)) ≠ 1%nat) then
          mret (Some (fmt.Errorf (strconv_Quote w) "Sent recipient list is empty." []))
        else
          mret (checkRecipients w (Recipients (SMSMessageData atResp)))
    end.

Definition SendAfricasTalkingSmsMessage (w : World) (x : Wire)
    (credentials : option AfricasTalkingCredentials)
    (message receiver : option string) : M (option error) :=
  if decide (message = None) then
    mret (Some (fmt.Errorf (strconv_Quote w) "Message body cannot be empty" []))
  else
    to ← deref receiver;
    if strings.Contains to "," then
      mret (Some (fmt.Errorf (strconv_Quote w)
        "Multiple receivers may hav been passed" []))
    else
      let baseURL := "https://api.africastalking.com/version1/messaging" in
      let payload : gmap string (list string) := ∅ in
      c ← deref credentials;
      let payload := Values_Set "username" (Username c) payload in
      let payload := Values_Set "to" to payload in
      let payload := Values_Set "from" (SenderID c) payload in
      text ← deref message;
      let payload := Values_Set "message" text payload in
      match http_NewRequest w "POST" baseURL
              (NewReader (url_Values_Encode x payload)) with
      | inl err =>
          mret (Some (fmt.Errorf (strconv_Quote w)
            "Failed to create http request: %w" [fmt.Err err]))
      | inr request =>
          let set := http.Header_Set (textproto_CanonicalMIMEHeaderKey w) in
          let request := set "Content-Type" "application/x-www-form-urlencoded" request in
          let request := set "Accept" "application/json" request in
          let request := set "apiKey" (ApiKey c) request in
          let answer := http_Client_Do w request in
          answered ← call (HttpDo request answer) answer;
          match answered with
          | inl err =>
              mret (Some (fmt.Errorf (strconv_Quote w)
                "Failed to execute http request: %w" [fmt.Err err]))
          | inr resp =>
              defer (call (BodyClose resp) ()) (interpretResponse w x resp)
          end
      end.

End Variant.

(** ** Named errors and observations *)

(** The marker of a send that was accepted and not billed. *)
Definition costMarker : string := "Total Cost: KES 0.00".

(** The errors of the Africa's Talking senders, by the place that makes
    them. *)
Definition rejected (w : World) (code : Z) (bodyText : string) : error :=
  fmt.Errorf (strconv_Quote w)
    "Africa's talking API failed with status %d. Response body: %s"
    [fmt.Int code; fmt.Str bodyText].

Definition unconfirmed (w : World) (err : error) : error :=
  fmt.Errorf (strconv_Quote w)
    "Successfully sent, but failed to parse response: %w" [fmt.Err err].

Definition likelyFailed (w : World) (statusText : string) : error :=
  fmt.Errorf (strconv_Quote w)
    "africa's talking send likely failed. Check API key/username. Response: %s"
    [fmt.Str statusText].

Definition invalidPort (w : World) (err : error) : error :=
  fmt.Errorf (strconv_Quote w) "Invalid port number: %w" [fmt.Err err].

(** What an attachment declares for a header field, and the function that
    copies its bytes: settings apply in order, the later one wins. *)
Fixpoint declared (ss : list gomail.FileSetting) (field : string) : option (list string) :=
  match ss with
  | [] => None
  | gomail.SetHeader h :: more =>
      match declared more field with
      | Some v => Some v
      | None => h !! field
      end
  | gomail.SetCopyFunc _ :: more => declared more field
  end.

Fixpoint copier (ss : list gomail.FileSetting) : option (bytes -> bytes * option error) :=
  match ss with
  | [] => None
  | gomail.SetCopyFunc f :: more =>
      match copier more with
      | Some g => Some g
      | None => Some f
      end
  | gomail.SetHeader _ :: more => copier more
  end.

(** Every attachment of an optional list has a name. *)
Definition named (attachments : option (list EmailAttachment)) : Prop :=
  ∀ l, attachments = Some l → Forall (fun a => Name a ≠ None) l.

(** ** Sample worlds, for concrete runs *)

(** [strconv.Quote] on a text with nothing to escape. *)
Definition quotePlain (s : string) : string := dquote +:+ s +:+ dquote.

Definition sampleRequest (method url : string) (body : Reader) : http.Request :=
  {| http.Method := method; http.URL := url; http.Header := ∅; http.ReqBody := body |}.

(** A world whose provider answers [answer] to any request, whose Twilio
    accepts and whose SMTP server answers [smtp]. *)
Definition worldAnswering (answer : error + http.Response) (smtp : option error) : World :=
  {| strconv_Quote := quotePlain;
     textproto_CanonicalMIMEHeaderKey := fun k => k;
     http_NewRequest := fun method url body => inr (sampleRequest method url body);
     http_Client_Do := fun _ => answer;
     twilio_CreateMessage := fun _ _ => None;
     gomail_DialAndSend := fun _ _ => smtp |}.

Definition wireDecoding (decoded : error + atSmsResponse) : Wire :=
  {| json_Marshal := fun _ => inr [];
     json_Decode := fun _ => decoded |}.

Definition variantWireDecoding (decoded : error + Variant.atSmsResponse) : Variant.Wire :=
  {| Variant.url_Values_Encode := fun _ => EmptyString;
     Variant.json_Decode := fun _ => decoded |}.

Definition responseOf (code : Z) (text : string) : http.Response :=
  {| http.StatusCode := code; http.Body := NewReader text |}.

Definition statusTextOf (text : string) : atSmsResponse :=
  {| SMSMessageData := {| Message := text |} |}.

Definition variantStatusTextOf (text : string)
    (recipients : list Variant.atSmsResponseRecipient) : Variant.atSmsResponse :=
  {| Variant.SMSMessageData :=
       {| Variant.Message := text; Variant.Recipients := recipients |} |}.

Definition sampleCredentials : AfricasTalkingCredentials :=
  {| ApiKey := "key"; Username := "sandbox"; SenderID := "INFO" |}.

Definition sampleTwilio : TwilioCredentials :=
  {| AccountSID := "AC0"; AuthToken := "token";
     SenderPhoneNumber := "+15550100"; SenderName := "Info" |}.

Definition sampleSMTP (port : string) : SMTPCredentials :=
  {| Host := "mail.example.org"; Port := port; User := "user";
     Sender := "noreply@example.org"; Password := "secret"; UseTLS := false |}.

(** ** Sample runs and named values *)

(** The request the first sender issues in a sample world, for the
    credentials [sampleCredentials]. *)
Definition sampleSent : http.Request :=
  http.Header_Set (fun k => k) "apiKey" "key"
    (http.Header_Set (fun k => k) "Accept" "application/json"
       (http.Header_Set (fun k => k) "Content-Type" "application/json"
          (sampleRequest "POST" "https://api.africastalking.com/version1/messaging"
             (NewBuffer [])))).

(** The request the second version issues there. *)
Definition sampleSentForm : http.Request :=
  http.Header_Set (fun k => k) "apiKey" "key"
    (http.Header_Set (fun k => k) "Accept" "application/json"
       (http.Header_Set (fun k => k) "Content-Type" "application/x-www-form-urlencoded"
          (sampleRequest "POST" "https://api.africastalking.com/version1/messaging"
             (NewReader EmptyString)))).

(** The provider rejects the key. *)
Definition rejectingWorld : World :=
  worldAnswering (inr (responseOf 401 "Invalid apiKey")) None.

Definition rejectedRun : M (option error) :=
  SendAfricasTalkingSmsMessage rejectingWorld
    (wireDecoding (inl (errorString "invalid character 'I' looking for beginning of value")))
    (Some sampleCredentials) (Some "hello") (Some "+254700000000").

(** The errors by which a sender says that an accepted request did not
    take effect: the first version's [likelyFailed], the second version's
    two fixed texts. *)
Definition isLogicalFailure (w : World) (e : error) : Prop :=
  (∃ statusText, e = likelyFailed w statusText)
  ∨ e = errorString "Sent recipient list is empty."
  ∨ e = errorString "Message could not be sent".

(** The provider answers 200 with a page that is no JSON. *)
Definition garbledWorld : World :=
  worldAnswering (inr (responseOf 200 "<html>Bad Gateway</html>")) None.

Definition garbledError : error :=
  errorString "invalid character '<' looking for beginning of value".

Definition garbledRun : M (option error) :=
  SendAfricasTalkingSmsMessage garbledWorld (wireDecoding (inl garbledError))
    (Some sampleCredentials) (Some "hello") (Some "+254700000000").

(** The provider bills the message. *)
Definition billedText : string := "Sent to 1/1 Total Cost: KES 1.50".

(** The provider's answer that carries a status text, and the one that
    lists one recipient besides. *)
Definition answerBody (statusText : string) : string :=
  "{" +:+ quotePlain "SMSMessageData" +:+ ":{" +:+ quotePlain "Message" +:+ ":"
  +:+ quotePlain statusText +:+ "}}".

Definition answerBodyListing (statusText : string) : string :=
  "{" +:+ quotePlain "SMSMessageData" +:+ ":{" +:+ quotePlain "Message" +:+ ":"
  +:+ quotePlain statusText +:+ "," +:+ quotePlain "Recipients" +:+ ":[{}]}}".

Definition billedBody : string := answerBody billedText.

Definition billingWorld : World := worldAnswering (inr (responseOf 201 billedBody)) None.

Definition billedRun : M (option error) :=
  SendAfricasTalkingSmsMessage billingWorld (wireDecoding (inr (statusTextOf billedText)))
    (Some sampleCredentials) (Some "hello") (Some "+254700000000").

(** The provider accepts the request and bills nothing. *)
Definition unbilledText : string := "Sent to 1/1 Total Cost: KES 0.00".

Definition unbilledBody : string := answerBody unbilledText.

Definition unbilledWorld : World := worldAnswering (inr (responseOf 200 unbilledBody)) None.

Definition listingBody : string := answerBodyListing unbilledText.

Definition listingWorld : World := worldAnswering (inr (responseOf 200 listingBody)) None.

Definition unbilledRun : M (option error) :=
  SendAfricasTalkingSmsMessage unbilledWorld (wireDecoding (inr (statusTextOf unbilledText)))
    (Some sampleCredentials) (Some "hello") (Some "+254700000000").

(** The second version on the billed answer, which lists no recipient, and
    on an unbilled answer that lists one. *)
Definition listlessWire : Variant.Wire :=
  variantWireDecoding (inr (variantStatusTextOf billedText [])).

Definition variantBilledRun : M (option error) :=
  Variant.SendAfricasTalkingSmsMessage billingWorld listlessWire
    (Some sampleCredentials) (Some "hello") (Some "+254700000000").

Definition listingWire : Variant.Wire :=
  variantWireDecoding
    (inr (variantStatusTextOf unbilledText [{| Variant.status := EmptyString |}])).

Definition variantUnbilledRun : M (option error) :=
  Variant.SendAfricasTalkingSmsMessage listingWorld listingWire
    (Some sampleCredentials) (Some "hello") (Some "+254700000000").

(** The validation errors, by the place that makes them. *)
Definition twilioBodyMissing : error :=
  errorString "Message body and receivers cannot be empty".

Definition bodyMissing : error := errorString "Message body cannot be empty".

Definition multipleReceivers : error :=
  errorString "Multiple receivers may hav been passed".

(** The dialer of the credentials [c] for the parsed port. *)
Definition dialerOf (c : SMTPCredentials) (port : Z) : gomail.Dialer :=
  gomail.NewDialer (Host c) port (User c) (Password c).

(** A report of three bytes, attached under a name. *)
Definition reportBytes : bytes := [x25; x50; x44].

Definition report : EmailAttachment :=
  {| Data := NewBuffer reportBytes; Name := Some "report.pdf" |}.

Definition mailingWorld : World := worldAnswering (inl (errorString "unused")) None.

(** The mail that carries the report to one receiver. *)
Definition reportMessage : gomail.Message :=
  gomail.Message_Attach "report.pdf"
    [gomail.SetHeader {[ "Content-Type" := ["application/octet-stream"] ]};
     gomail.SetCopyFunc (copyFunc report)]
    (gomail.Message_SetHeader "Subject" ["Report"]
       (gomail.Message_SetHeader "To" ["ann@example.org"]
          (gomail.Message_SetHeader "From" ["noreply@example.org"] gomail.NewMessage))).

(** The same report, given with the folder it is in. *)
Definition filedReport : EmailAttachment :=
  {| Data := NewBuffer reportBytes; Name := Some "reports/q1.pdf" |}.

Definition filedReportMessage : gomail.Message :=
  gomail.Message_Attach "reports/q1.pdf"
    [gomail.SetHeader {[ "Content-Type" := ["application/octet-stream"] ]};
     gomail.SetCopyFunc (copyFunc filedReport)]
    (gomail.Message_SetHeader "To" ["ann@example.org"]
       (gomail.Message_SetHeader "From" ["noreply@example.org"] gomail.NewMessage)).

Definition filedReportRun : M (option error) :=
  SendSMTPEmailMessage mailingWorld (Some (sampleSMTP "587")) None None false
    (Some [filedReport]) (Some ["ann@example.org"]).

Definition reportRun : M (option error) :=
  SendSMTPEmailMessage mailingWorld (Some (sampleSMTP "587")) (Some "Report") None true
    (Some [report]) (Some ["ann@example.org"]).

(** ** Values for the further properties *)

(** The credentials [c] with another TLS flag, and Twilio credentials with
    another display name. *)
Definition withUseTLS (flag : bool) (c : SMTPCredentials) : SMTPCredentials :=
  {| Host := Host c; Port := Port c; User := User c; Sender := Sender c;
     Password := Password c; UseTLS := flag |}.

Definition withSenderName (name : string) (tc : TwilioCredentials) : TwilioCredentials :=
  {| AccountSID := AccountSID tc; AuthToken := AuthToken tc;
     SenderPhoneNumber := SenderPhoneNumber tc; SenderName := name |}.

(** An attachment of the message carries an entry of the list: it is kept
    under the base of the entry's name, declares "application/octet-stream"
    and copies the bytes of the entry's own reader, which a reader of the
    mail gets back from its body. *)
Definition carries (reader : EmailAttachment) (a : gomail.attachment) : Prop :=
  (∃ name, Name reader = Some name ∧ gomail.Name a = filepath.Base name)
  ∧ declared (gomail.settings a) "Content-Type" = Some ["application/octet-stream"]
  ∧ ∃ f, copier (gomail.settings a) = Some f
         ∧ (∀ buffer, f buffer = ((buffer ++ delivered (Data reader))%list,
                                   failure (Data reader)))
         ∧ gomail.readBack (gomail.writeBody f).1 = Some (delivered (Data reader)).

(** The attachments of an optional list. *)
Definition supplied (attachments : option (list EmailAttachment)) : list EmailAttachment :=
  match attachments with
  | Some l => l
  | None => []
  end.

(** A second attachment, and a mail that carries both to two receivers
    through a port no SMTP server listens on. *)
Definition notesBytes : bytes := [x68; x69].

Definition notes : EmailAttachment :=
  {| Data := NewBuffer notesBytes; Name := Some "notes.txt" |}.

Definition refusingWorld : World :=
  worldAnswering (inl (errorString "unused"))
    (Some (errorString "dial tcp: address 70000: invalid port")).

Definition twoReportsRun : M (option error) :=
  SendSMTPEmailMessage refusingWorld (Some (sampleSMTP "70000")) None (Some "<p>Hi</p>") true
    (Some [report; notes]) (Some ["ann@example.org"; "bob@example.org"]).

Definition twoReportsMessage : gomail.Message :=
  gomail.Message_Attach "notes.txt"
    [gomail.SetHeader {[ "Content-Type" := ["application/octet-stream"] ]};
     gomail.SetCopyFunc (copyFunc notes)]
    (gomail.Message_Attach "report.pdf"
       [gomail.SetHeader {[ "Content-Type" := ["application/octet-stream"] ]};
        gomail.SetCopyFunc (copyFunc report)]
       (gomail.Message_SetBody "text/html" "<p>Hi</p>"
          (gomail.Message_SetHeader "To" ["ann@example.org"; "bob@example.org"]
             (gomail.Message_SetHeader "From" ["noreply@example.org"] gomail.NewMessage)))).

(** The parts of the request of the Africa's Talking senders: the
    endpoint, the JSON payload of the first version, the form of the
    second, and the three header fields set on the request. *)
Definition endpoint : string := "https://api.africastalking.com/version1/messaging".

Definition payloadOf (c : AfricasTalkingCredentials) (to text : string) : atSmsRequest :=
  {| atSmsRequest_Username := Username c;
     atSmsRequest_To := to;
     atSmsRequest_Message := text;
     atSmsRequest_From := SenderID c |}.

Definition formOf (c : AfricasTalkingCredentials) (to text : string)
    : gmap string (list string) :=
  Variant.Values_Set "message" text
    (Variant.Values_Set "from" (SenderID c)
       (Variant.Values_Set "to" to
          (Variant.Values_Set "username" (Username c) ∅))).

Definition withHeaders (w : World) (contentType : string) (c : AfricasTalkingCredentials)
    (base : http.Request) : http.Request :=
  http.Header_Set (textproto_CanonicalMIMEHeaderKey w) "apiKey" (ApiKey c)
    (http.Header_Set (textproto_CanonicalMIMEHeaderKey w) "Accept" "application/json"
       (http.Header_Set (textproto_CanonicalMIMEHeaderKey w) "Content-Type" contentType
          base)).

(** The errors for a request that could not be built or executed. *)
Definition marshalFailed (w : World) (err : error) : error :=
  fmt.Errorf (strconv_Quote w) "Failed to marshal JSON payload: %w" [fmt.Err err].

Definition requestFailed (w : World) (err : error) : error :=
  fmt.Errorf (strconv_Quote w) "Failed to create http request: %w" [fmt.Err err].

Definition transportFailed (w : World) (err : error) : error :=
  fmt.Errorf (strconv_Quote w) "Failed to execute http request: %w" [fmt.Err err].

(** The Twilio client and request for credentials, a body and a receiver. *)
Definition clientOf (tc : TwilioCredentials) : twilio.RestClient :=
  twilio.NewRestClientWithParams
    {| twilio.Username := AccountSID tc; twilio.Password := AuthToken tc |}.

Definition paramsOf (tc : TwilioCredentials) (body to : string) : twilio.CreateMessageParams :=
  {| twilio.Body := Some body; twilio.From := Some (SenderPhoneNumber tc);
     twilio.To := Some to |}.

(** The network is down. *)
Definition unreachable : error :=
  errorString "dial tcp: lookup api.africastalking.com: no such host".

Definition offlineWorld : World := worldAnswering (inl unreachable) None.

Definition offlineRun : M (option error) :=
  SendAfricasTalkingSmsMessage offlineWorld (wireDecoding (inl garbledError))
    (Some sampleCredentials) (Some "hello") (Some "+254700000000").

(** Twilio is sent an empty body. *)
Definition emptyBodyRun : M (option error) :=
  SendTwilioSmsMessage offlineWorld (Some sampleTwilio) (Some EmptyString) (Some "+15550123").


(** * Properties *)

(** ** Evaluations *)

Example Atoi_587 : strconv.Atoi "587" = inr 587.
Proof. reflexivity. Qed.

Example Atoi_smtp : strconv.Atoi "smtp" = inl (NumError "Atoi" "smtp" strconv.ErrSyntax).
Proof. reflexivity. Qed.

Example Atoi_empty : strconv.Atoi EmptyString = inl (NumError "Atoi" EmptyString strconv.ErrSyntax).
Proof. reflexivity. Qed.

Example Atoi_sign_only : strconv.Atoi "-" = inl (NumError "Atoi" "-" strconv.ErrSyntax).
Proof. reflexivity. Qed.

Example Atoi_big :
  strconv.Atoi "9223372036854775808" = inl (NumError "Atoi" "9223372036854775808" strconv.ErrRange).
Proof. vm_compute. reflexivity. Qed.

Example Atoi_negative : strconv.Atoi "-25" = inr (-25).
Proof. reflexivity. Qed.

Example Atoi_min : strconv.Atoi "-9223372036854775808" = inr (- 2 ^ 63).
Proof. vm_compute. reflexivity. Qed.

Example Atoi_overflow_first :
  strconv.Atoi "99999999999999999999x"
  = inl (NumError "Atoi" "99999999999999999999x" strconv.ErrRange).
Proof. vm_compute. reflexivity. Qed.

Example Atoi_space : strconv.Atoi " 25" = inl (NumError "Atoi" " 25" strconv.ErrSyntax).
Proof. reflexivity. Qed.

Example Compare_empty : strings.Compare EmptyString "Success" = -1.
Proof. reflexivity. Qed.

Example Base_folder : filepath.Base "reports/q1.pdf" = "q1.pdf".
Proof. reflexivity. Qed.

Example Base_trailing : filepath.Base "reports/2024//" = "2024".
Proof. reflexivity. Qed.

Example Base_empty : filepath.Base EmptyString = ".".
Proof. reflexivity. Qed.

Example Base_separators : filepath.Base "//" = "/".
Proof. reflexivity. Qed.

Example Base_plain_name : filepath.Base "report.pdf" = "report.pdf".
Proof. reflexivity. Qed.

Example Encode_padded :
  base64.Encode (bytes_of_string "Ma") = bytes_of_string "TWE="
  ∧ base64.Encode (bytes_of_string "M") = bytes_of_string "TQ=="
  ∧ base64.Encode (bytes_of_string "Man") = bytes_of_string "TWFu".
Proof. repeat split. Qed.

Example Decode_rejects : base64.Decode (bytes_of_string "TWE") = None.
Proof. reflexivity. Qed.

Example lineWriter_breaks :
  gomail.lineWriter 0 (repeat x41 77) = (repeat x41 76 ++ [x0d; x0a; x41])%list
  ∧ gomail.lineWriter 0 (repeat x41 76) = repeat x41 76.
Proof. split; reflexivity. Qed.

Example Contains_cost :
  strings.Contains "Sent to 1/1 Total Cost: KES 0.00" "Total Cost: KES 0.00" = true.
Proof. reflexivity. Qed.

Example d_401 : fmt.d 401 = "401".
Proof. reflexivity. Qed.

Example d_neg : fmt.d (-7) = "-7".
Proof. reflexivity. Qed.

Example d_zero : fmt.d 0 = "0".
Proof. reflexivity. Qed.

(** ** Substrings *)

#[local] Arguments String.append !s1 s2 : simpl nomatch.

Lemma append_empty_r (s : string) : s +:+ EmptyString = s.
Proof. induction s as [|c s IH]; simpl; [reflexivity | now rewrite IH]. Qed.

Lemma append_assoc (a b c : string) : (a +:+ b) +:+ c = a +:+ (b +:+ c).
Proof. induction a as [|x a IH]; simpl; [reflexivity | now rewrite IH]. Qed.

Lemma HasPrefix_append (p s : string) : strings.HasPrefix (p +:+ s) p = true.
Proof.
  induction p as [|c p IH]; simpl.
  - now destruct s.
  - now rewrite Ascii.eqb_refl, IH.
Qed.

Lemma Contains_here (s sub : string) :
  strings.HasPrefix s sub = true → strings.Contains s sub = true.
Proof. intros H. destruct s; cbn [strings.Contains]; now rewrite H. Qed.

Lemma Contains_cons (c : ascii) (s sub : string) :
  strings.Contains s sub = true → strings.Contains (String c s) sub = true.
Proof. intros H. cbn [strings.Contains]. rewrite H. apply orb_true_r. Qed.

Lemma Contains_append_r (pre s sub : string) :
  strings.Contains s sub = true → strings.Contains (pre +:+ s) sub = true.
Proof.
  intros H. induction pre as [|c pre IH]; [exact H |].
  change (String c pre +:+ s) with (String c (pre +:+ s)).
  now apply Contains_cons.
Qed.

Lemma Contains_between (pre sub post : string) :
  strings.Contains (pre +:+ sub +:+ post) sub = true.
Proof. apply Contains_append_r, Contains_here, HasPrefix_append. Qed.

Lemma Contains_at_end (pre sub : string) : strings.Contains (pre +:+ sub) sub = true.
Proof.
  rewrite <- (append_empty_r sub) at 1. apply Contains_between.
Qed.

(** ** The texts of the errors *)

Lemma rejected_text (w : World) (code : Z) (bodyText : string) :
  rejected w code bodyText =
  errorString ("Africa's talking API failed with status " +:+ fmt.d code
               +:+ ". Response body: " +:+ bodyText).
Proof.
  unfold rejected, fmt.Errorf. cbn [fmt.wrapped fmt.Sprintf fmt.verb].
  now rewrite append_empty_r.
Qed.

Lemma likelyFailed_text (w : World) (statusText : string) :
  likelyFailed w statusText =
  errorString ("africa's talking send likely failed. Check API key/username. Response: "
               +:+ statusText).
Proof.
  unfold likelyFailed, fmt.Errorf. cbn [fmt.wrapped fmt.Sprintf fmt.verb].
  now rewrite append_empty_r.
Qed.

Lemma unconfirmed_text (w : World) (err : error) :
  unconfirmed w err =
  wrapError ("Successfully sent, but failed to parse response: "
             +:+ fmt.Error (strconv_Quote w) err) err.
Proof.
  unfold unconfirmed, fmt.Errorf. cbn [fmt.wrapped fmt.Sprintf fmt.verb].
  now rewrite append_empty_r.
Qed.

Lemma invalidPort_text (w : World) (err : error) :
  invalidPort w err =
  wrapError ("Invalid port number: " +:+ fmt.Error (strconv_Quote w) err) err.
Proof.
  unfold invalidPort, fmt.Errorf. cbn [fmt.wrapped fmt.Sprintf fmt.verb].
  now rewrite append_empty_r.
Qed.

(** ** Runs of the Africa's Talking senders *)

Ltac run :=
  cbv beta iota zeta
      delta [mbind mret M_bind M_ret deref call defer result trace fst snd app] in *.

(** The part after the deferred close, as one case analysis. *)
Lemma interpretResponse_run (w : World) (x : Wire) (resp : http.Response) :
  interpretResponse w x resp =
  if bool_decide (http.StatusCode resp ≠ 201) && bool_decide (http.StatusCode resp ≠ 200)
  then (Returned (Some (rejected w (http.StatusCode resp)
                          (string_of_bytes (delivered (http.Body resp))))),
        [BodyReadAll resp])
  else
    match json_Decode x (http.Body resp) with
    | inl err => (Returned (Some (unconfirmed w err)), [BodyDecode resp])
    | inr atResp =>
        if strings.Contains (Message (SMSMessageData atResp)) costMarker
        then (Returned (Some (likelyFailed w (Message (SMSMessageData atResp)))),
              [BodyDecode resp])
        else (Returned None, [BodyDecode resp])
    end.
Proof.
  unfold interpretResponse, http.StatusCreated, http.StatusOK, costMarker.
  destruct (bool_decide _ && bool_decide _); run; [reflexivity |].
  destruct (json_Decode x (http.Body resp)) as [err | atResp]; [reflexivity |].
  now destruct (strings.Contains _ _).
Qed.

Lemma Variant_interpretResponse_run (w : World) (x : Variant.Wire) (resp : http.Response) :
  Variant.interpretResponse w x resp =
  if bool_decide (http.StatusCode resp ≠ 201) && bool_decide (http.StatusCode resp ≠ 200)
  then (Returned (Some (rejected w (http.StatusCode resp)
                          (string_of_bytes (delivered (http.Body resp))))),
        [BodyReadAll resp])
  else
    match Variant.json_Decode x (http.Body resp) with
    | inl err => (Returned (Some (unconfirmed w err)), [BodyDecode resp])
    | inr atResp =>
        let recipients := Variant.Recipients (Variant.SMSMessageData atResp) in
        if bool_decide (length recipients ≠ 1%nat)
        then (Returned (Some (errorString "Sent recipient list is empty.")),
              [BodyDecode resp])
        else (Returned (Variant.checkRecipients w recipients), [BodyDecode resp])
    end.
Proof.
  unfold Variant.interpretResponse, http.StatusCreated, http.StatusOK.
  destruct (bool_decide _ && bool_decide _); run; [reflexivity |].
  destruct (Variant.json_Decode x (http.Body resp)) as [err | atResp]; [reflexivity |].
  cbn zeta. now destruct (bool_decide _).
Qed.

(** The part after the deferred close makes no network call, releases
    nothing and does not panic. *)
Lemma interpretResponse_quiet (w : World) (x : Wire) (resp : http.Response) :
  (trace (interpretResponse w x resp) = [BodyReadAll resp]
   ∨ trace (interpretResponse w x resp) = [BodyDecode resp])
  ∧ ∃ r, result (interpretResponse w x resp) = Returned r.
Proof.
  rewrite interpretResponse_run.
  destruct (bool_decide _ && bool_decide _); [eauto |].
  destruct (json_Decode _ _); [eauto |].
  destruct (strings.Contains _ _); eauto.
Qed.

Lemma Variant_interpretResponse_quiet (w : World) (x : Variant.Wire) (resp : http.Response) :
  (trace (Variant.interpretResponse w x resp) = [BodyReadAll resp]
   ∨ trace (Variant.interpretResponse w x resp) = [BodyDecode resp])
  ∧ ∃ r, result (Variant.interpretResponse w x resp) = Returned r.
Proof.
  rewrite Variant_interpretResponse_run.
  destruct (bool_decide _ && bool_decide _); [eauto |].
  destruct (Variant.json_Decode _ _); [eauto |].
  cbn zeta. destruct (bool_decide _); eauto.
Qed.

(** A run that obtained the response [resp] is the request, then the part
    after the deferred close, then the close. *)
Lemma obtained_run (w : World) (x : Wire) (credentials : option AfricasTalkingCredentials)
    (message receiver : option string) (req : http.Request) (resp : http.Response) :
  HttpDo req (inr resp) ∈ trace (SendAfricasTalkingSmsMessage w x credentials message receiver) →
  SendAfricasTalkingSmsMessage w x credentials message receiver =
    (result (interpretResponse w x resp),
     HttpDo req (inr resp) :: trace (interpretResponse w x resp) ++ [BodyClose resp])
  ∧ message ≠ None ∧ receiver ≠ None ∧ credentials ≠ None.
Proof.
  unfold SendAfricasTalkingSmsMessage.
  destruct (decide (message = None)) as [-> | Hm]; [intros H; run; inversion H |].
  destruct credentials as [c |]; [| intros H; run; inversion H].
  destruct receiver as [to |]; [| intros H; run; inversion H].
  destruct message as [text |]; [| congruence].
  run.
  destruct (json_Marshal x _) as [err | jsonPayload]; [intros H; run; inversion H |].
  destruct (http_NewRequest w _ _ _) as [err | request]; [intros H; run; inversion H |].
  cbn zeta.
  destruct (http_Client_Do w _) as [err | resp'] eqn:Hdo.
  - intros H. run. apply list_elem_of_singleton in H. discriminate H.
  - destruct (interpretResponse_quiet w x resp') as [Ht [r Hr]].
    destruct (interpretResponse w x resp') as [o t] eqn:Hi. run. subst o.
    intros H. apply elem_of_cons in H as [H | H].
    + injection H as -> ->. rewrite Hi. repeat split; congruence.
    + exfalso. destruct Ht as [-> | ->]; cbn in H;
        repeat (apply elem_of_cons in H as [H | H]; [discriminate H |]);
        inversion H.
Qed.

Lemma Variant_obtained_run (w : World) (x : Variant.Wire)
    (credentials : option AfricasTalkingCredentials)
    (message receiver : option string) (req : http.Request) (resp : http.Response) :
  HttpDo req (inr resp)
    ∈ trace (Variant.SendAfricasTalkingSmsMessage w x credentials message receiver) →
  Variant.SendAfricasTalkingSmsMessage w x credentials message receiver =
    (result (Variant.interpretResponse w x resp),
     HttpDo req (inr resp) :: trace (Variant.interpretResponse w x resp) ++ [BodyClose resp])
  ∧ message ≠ None ∧ receiver ≠ None ∧ credentials ≠ None.
Proof.
  unfold Variant.SendAfricasTalkingSmsMessage.
  destruct (decide (message = None)) as [-> | Hm]; [intros H; run; inversion H |].
  destruct receiver as [to |]; [| intros H; run; inversion H].
  run. destruct (strings.Contains to ",") ; [intros H; run; inversion H |].
  destruct credentials as [c |]; [| intros H; run; inversion H].
  destruct message as [text |]; [| congruence].
  run.
  destruct (http_NewRequest w _ _ _) as [err | request]; [intros H; run; inversion H |].
  cbn zeta.
  destruct (http_Client_Do w _) as [err | resp'] eqn:Hdo.
  - intros H. run. apply list_elem_of_singleton in H. discriminate H.
  - destruct (Variant_interpretResponse_quiet w x resp') as [Ht [r Hr]].
    destruct (Variant.interpretResponse w x resp') as [o t] eqn:Hi. run. subst o.
    intros H. apply elem_of_cons in H as [H | H].
    + injection H as -> ->. rewrite Hi. repeat split; congruence.
    + exfalso. destruct Ht as [-> | ->]; cbn in H;
        repeat (apply elem_of_cons in H as [H | H]; [discriminate H |]);
        inversion H.
Qed.

(** ** Sample runs, step by step *)

Example rejectedRun_trace :
  trace rejectedRun =
  [HttpDo sampleSent (inr (responseOf 401 "Invalid apiKey"));
   BodyReadAll (responseOf 401 "Invalid apiKey");
   BodyClose (responseOf 401 "Invalid apiKey")].
Proof. reflexivity. Qed.

Example twilio_sends :
  SendTwilioSmsMessage rejectingWorld (Some sampleTwilio) (Some "hello") (Some "+15550123")
  = (Returned None,
     [TwilioCreateMessage
        {| twilio.params := {| twilio.Username := "AC0"; twilio.Password := "token" |} |}
        {| twilio.Body := Some "hello"; twilio.From := Some "+15550100";
           twilio.To := Some "+15550123" |}]).
Proof. reflexivity. Qed.

Example twilio_without_credentials :
  SendTwilioSmsMessage rejectingWorld None None None = (Panicked, []).
Proof. reflexivity. Qed.

Example variant_status_is_checked :
  Variant.checkRecipients rejectingWorld [{| Variant.status := "Failed" |}]
  = Some (errorString "Message could not be sent").
Proof. reflexivity. Qed.

(** ** Provider rejection *)

(** C4 — Whenever a run of the Africa's Talking sender (of either version
    of the file) obtained an HTTP response whose status is neither 200 nor
    201, the sender returns the provider-rejection error, and the text of
    that error contains the decimal status code and the response body as
    read. *)
Theorem rejection_reports_status_and_body
    (w : World) (x : Wire) (vx : Variant.Wire)
    (credentials : option AfricasTalkingCredentials) (message receiver : option string)
    (run : M (option error)) (req : http.Request) (resp : http.Response) :
  run = SendAfricasTalkingSmsMessage w x credentials message receiver
  ∨ run = Variant.SendAfricasTalkingSmsMessage w vx credentials message receiver →
  HttpDo req (inr resp) ∈ trace run →
  http.StatusCode resp ≠ 200 →
  http.StatusCode resp ≠ 201 →
  let bodyText := string_of_bytes (delivered (http.Body resp)) in
  let e := rejected w (http.StatusCode resp) bodyText in
  message ≠ None
  ∧ result run = Returned (Some e)
  ∧ strings.Contains (fmt.Error (strconv_Quote w) e) (fmt.d (http.StatusCode resp)) = true
  ∧ strings.Contains (fmt.Error (strconv_Quote w) e) bodyText = true.
Proof.
  intros Hrun Hin H200 H201 bodyText e.
  assert (Hbranch :
    bool_decide (http.StatusCode resp ≠ 201) && bool_decide (http.StatusCode resp ≠ 200)
    = true).
  { rewrite !bool_decide_eq_true_2 by assumption. reflexivity. }
  assert (Hres : message ≠ None ∧ result run = Returned (Some e)).
  { destruct Hrun as [-> | ->].
    - apply obtained_run in Hin as (-> & Hm & _). split; [exact Hm |].
      unfold result at 1. cbn [fst].
      rewrite interpretResponse_run, Hbranch. reflexivity.
    - apply Variant_obtained_run in Hin as (-> & Hm & _). split; [exact Hm |].
      unfold result at 1. cbn [fst].
      rewrite Variant_interpretResponse_run, Hbranch. reflexivity. }
  destruct Hres as [Hm Hres]. repeat split; [exact Hm | exact Hres | |].
  - unfold e. rewrite rejected_text. cbn [fmt.Error]. apply Contains_between.
  - unfold e. rewrite rejected_text. cbn [fmt.Error].
    rewrite <- append_assoc, <- append_assoc. apply Contains_at_end.
Qed.

Lemma rejection_reports_status_and_body_witness :
  result rejectedRun =
    Returned (Some (errorString
      "Africa's talking API failed with status 401. Response body: Invalid apiKey"))
  ∧ strings.Contains
      "Africa's talking API failed with status 401. Response body: Invalid apiKey"
      "401" = true
  ∧ strings.Contains
      "Africa's talking API failed with status 401. Response body: Invalid apiKey"
      "Invalid apiKey" = true.
Proof.
  refine (proj2 (rejection_reports_status_and_body rejectingWorld
    (wireDecoding (inl (errorString "invalid character 'I' looking for beginning of value")))
    (variantWireDecoding (inl (errorString "unused")))
    (Some sampleCredentials) (Some "hello") (Some "+254700000000")
    rejectedRun sampleSent (responseOf 401 "Invalid apiKey") _ _ _ _)).
  - left. reflexivity.
  - vm_compute. apply list_elem_of_here.
  - vm_compute. discriminate.
  - vm_compute. discriminate.
Defined.

(** ** Unconfirmed sends *)

(** C5 — Whenever a run of the Africa's Talking sender (of either version)
    obtained a response with status 200 or 201 whose body does not decode,
    the sender returns the error that wraps the decoder's error under the
    text "Successfully sent, but failed to parse response: "; this is not
    success, and its text differs from the text of every logical-failure
    error. *)
Theorem undecodable_success_is_unconfirmed
    (w : World) (x : Wire) (vx : Variant.Wire)
    (credentials : option AfricasTalkingCredentials) (message receiver : option string)
    (run : M (option error)) (req : http.Request) (resp : http.Response) (err : error) :
  run = SendAfricasTalkingSmsMessage w x credentials message receiver
    ∧ json_Decode x (http.Body resp) = inl err
  ∨ run = Variant.SendAfricasTalkingSmsMessage w vx credentials message receiver
    ∧ Variant.json_Decode vx (http.Body resp) = inl err →
  HttpDo req (inr resp) ∈ trace run →
  http.StatusCode resp = 200 ∨ http.StatusCode resp = 201 →
  result run = Returned (Some (unconfirmed w err))
  ∧ result run ≠ Returned None
  ∧ strings.HasPrefix (fmt.Error (strconv_Quote w) (unconfirmed w err))
      "Successfully sent, but failed to parse response: " = true
  ∧ ∀ e, isLogicalFailure w e →
      unconfirmed w err ≠ e
      ∧ fmt.Error (strconv_Quote w) (unconfirmed w err) ≠ fmt.Error (strconv_Quote w) e.
Proof.
  intros Hrun Hin Hcode.
  assert (Hbranch :
    bool_decide (http.StatusCode resp ≠ 201) && bool_decide (http.StatusCode resp ≠ 200)
    = false).
  { destruct Hcode as [-> | ->]; reflexivity. }
  assert (Hres : result run = Returned (Some (unconfirmed w err))).
  { destruct Hrun as [[-> Hdec] | [-> Hdec]].
    - apply obtained_run in Hin as (-> & _).
      unfold result at 1. cbn [fst].
      rewrite interpretResponse_run, Hbranch, Hdec. reflexivity.
    - apply Variant_obtained_run in Hin as (-> & _).
      unfold result at 1. cbn [fst].
      rewrite Variant_interpretResponse_run, Hbranch, Hdec. reflexivity. }
  split; [exact Hres |]. split; [rewrite Hres; discriminate |].
  rewrite unconfirmed_text. cbn [fmt.Error]. split; [apply HasPrefix_append |].
  assert (Htext : ∀ e, isLogicalFailure w e →
    "Successfully sent, but failed to parse response: "
      +:+ fmt.Error (strconv_Quote w) err ≠ fmt.Error (strconv_Quote w) e).
  { intros e [[statusText ->] | [-> | ->]].
    - rewrite likelyFailed_text. cbn [fmt.Error]. simpl. discriminate.
    - cbn [fmt.Error]. simpl. discriminate.
    - cbn [fmt.Error]. simpl. discriminate. }
  intros e He. split; [| exact (Htext e He)].
  intros <-. apply (Htext _ He). reflexivity.
Qed.

Lemma undecodable_success_is_unconfirmed_witness :
  result garbledRun =
    Returned (Some (wrapError
      "Successfully sent, but failed to parse response: invalid character '<' looking for beginning of value"
      garbledError))
  ∧ result garbledRun ≠ Returned None.
Proof.
  pose proof (undecodable_success_is_unconfirmed garbledWorld
    (wireDecoding (inl garbledError)) (variantWireDecoding (inl garbledError))
    (Some sampleCredentials) (Some "hello") (Some "+254700000000")
    garbledRun sampleSent (responseOf 200 "<html>Bad Gateway</html>") garbledError) as H.
  destruct H as (H1 & H2 & _).
  - left. split; reflexivity.
  - vm_compute. apply list_elem_of_here.
  - left. reflexivity.
  - split; [exact H1 | exact H2].
Defined.

(** ** Release of the response body *)

(** C8 — Whenever a run of the Africa's Talking sender (of either version)
    obtained an HTTP response, the run returns, and the last thing it does
    is to close the body of that response; the body is not closed earlier.
    This holds whichever way the run ends: rejection, undecodable body,
    logical failure or success. *)
Theorem body_closed_on_every_path
    (w : World) (x : Wire) (vx : Variant.Wire)
    (credentials : option AfricasTalkingCredentials) (message receiver : option string)
    (run : M (option error)) (req : http.Request) (resp : http.Response) :
  run = SendAfricasTalkingSmsMessage w x credentials message receiver
  ∨ run = Variant.SendAfricasTalkingSmsMessage w vx credentials message receiver →
  HttpDo req (inr resp) ∈ trace run →
  ∃ (r : option error) (before : list event),
    run = (Returned r, (before ++ [BodyClose resp])%list)
    ∧ Forall (fun e => is_close e = false) before.
Proof.
  intros Hrun Hin.
  assert (Hshape : ∃ (r : option error) (mid : list event),
    run = (Returned r, HttpDo req (inr resp) :: (mid ++ [BodyClose resp])%list)
    ∧ (mid = [BodyReadAll resp] ∨ mid = [BodyDecode resp])).
  { destruct Hrun as [-> | ->].
    - apply obtained_run in Hin as (-> & _).
      destruct (interpretResponse_quiet w x resp) as [Ht [r Hr]].
      exists r, (trace (interpretResponse w x resp)). rewrite Hr. split; [reflexivity | exact Ht].
    - apply Variant_obtained_run in Hin as (-> & _).
      destruct (Variant_interpretResponse_quiet w vx resp) as [Ht [r Hr]].
      exists r, (trace (Variant.interpretResponse w vx resp)). rewrite Hr.
      split; [reflexivity | exact Ht]. }
  destruct Hshape as (r & mid & -> & Hmid).
  exists r, (HttpDo req (inr resp) :: mid). split; [reflexivity |].
  destruct Hmid as [-> | ->]; repeat constructor.
Qed.

Lemma body_closed_on_every_path_witness :
  billedRun =
    (Returned None,
     [HttpDo sampleSent (inr (responseOf 201 billedBody));
      BodyDecode (responseOf 201 billedBody);
      BodyClose (responseOf 201 billedBody)])
  ∧ ∃ (r : option error) (before : list event),
      billedRun = (Returned r, (before ++ [BodyClose (responseOf 201 billedBody)])%list)
      ∧ Forall (fun e => is_close e = false) before.
Proof.
  split; [reflexivity |].
  apply (body_closed_on_every_path billingWorld
    (wireDecoding (inr (statusTextOf billedText))) (variantWireDecoding (inl garbledError))
    (Some sampleCredentials) (Some "hello") (Some "+254700000000")
    billedRun sampleSent (responseOf 201 billedBody)).
  - left. reflexivity.
  - vm_compute. apply list_elem_of_here.
Defined.

(** ** The cost marker *)

(** C1, as amended — Whenever a run of the sender of [MessagingUtilities.go]
    obtained a response with status 200 or 201 whose body decodes, the
    sender returns an error exactly when the decoded status text contains
    "Total Cost: KES 0.00"; that error is the logical-failure error, whose
    text contains the status text; without the marker the sender returns
    success. *)
Theorem cost_marker_decides
    (w : World) (x : Wire)
    (credentials : option AfricasTalkingCredentials) (message receiver : option string)
    (req : http.Request) (resp : http.Response) (atResp : atSmsResponse) :
  let run := SendAfricasTalkingSmsMessage w x credentials message receiver in
  let statusText := Message (SMSMessageData atResp) in
  HttpDo req (inr resp) ∈ trace run →
  http.StatusCode resp = 200 ∨ http.StatusCode resp = 201 →
  json_Decode x (http.Body resp) = inr atResp →
  ((∃ e, result run = Returned (Some e)) ↔ strings.Contains statusText costMarker = true)
  ∧ (strings.Contains statusText costMarker = true →
     result run = Returned (Some (likelyFailed w statusText)))
  ∧ (strings.Contains statusText costMarker = false → result run = Returned None)
  ∧ strings.Contains (fmt.Error (strconv_Quote w) (likelyFailed w statusText)) statusText
    = true.
Proof.
  intros run statusText Hin Hcode Hdec.
  assert (Hbranch :
    bool_decide (http.StatusCode resp ≠ 201) && bool_decide (http.StatusCode resp ≠ 200)
    = false).
  { destruct Hcode as [-> | ->]; reflexivity. }
  assert (Hres : result run =
    if strings.Contains statusText costMarker
    then Returned (Some (likelyFailed w statusText)) else Returned None).
  { unfold run. apply obtained_run in Hin as (-> & _).
    unfold result at 1. cbn [fst].
    rewrite interpretResponse_run, Hbranch, Hdec. fold statusText.
    now destruct (strings.Contains statusText costMarker). }
  rewrite Hres. repeat split.
  - intros [e He]. destruct (strings.Contains statusText costMarker); [reflexivity | discriminate].
  - intros ->. eauto.
  - intros ->. reflexivity.
  - intros ->. reflexivity.
  - rewrite likelyFailed_text. cbn [fmt.Error]. apply Contains_at_end.
Qed.

Lemma cost_marker_decides_witness :
  (result unbilledRun =
     Returned (Some (errorString
       "africa's talking send likely failed. Check API key/username. Response: Sent to 1/1 Total Cost: KES 0.00")))
  ∧ result billedRun = Returned None.
Proof.
  split.
  - refine (proj1 (proj2 (cost_marker_decides unbilledWorld
      (wireDecoding (inr (statusTextOf unbilledText)))
      (Some sampleCredentials) (Some "hello") (Some "+254700000000")
      sampleSent (responseOf 200 unbilledBody) (statusTextOf unbilledText) _ _ _)) _).
    + vm_compute. apply list_elem_of_here.
    + left. reflexivity.
    + reflexivity.
    + reflexivity.
  - refine (proj1 (proj2 (proj2 (cost_marker_decides billingWorld
      (wireDecoding (inr (statusTextOf billedText)))
      (Some sampleCredentials) (Some "hello") (Some "+254700000000")
      sampleSent (responseOf 201 billedBody) (statusTextOf billedText) _ _ _))) _).
    + vm_compute. apply list_elem_of_here.
    + right. reflexivity.
    + reflexivity.
    + reflexivity.
Defined.

(** The second version decides by the decoded recipient list, whatever the
    status text: an error unless exactly one entry is listed, then the
    verdict of the loop over that entry. *)
Lemma Variant_recipients_decide
    (w : World) (vx : Variant.Wire)
    (credentials : option AfricasTalkingCredentials) (message receiver : option string)
    (req : http.Request) (resp : http.Response) (atResp : Variant.atSmsResponse) :
  let run := Variant.SendAfricasTalkingSmsMessage w vx credentials message receiver in
  let recipients := Variant.Recipients (Variant.SMSMessageData atResp) in
  HttpDo req (inr resp) ∈ trace run →
  http.StatusCode resp = 200 ∨ http.StatusCode resp = 201 →
  Variant.json_Decode vx (http.Body resp) = inr atResp →
  (length recipients ≠ 1%nat →
   result run = Returned (Some (errorString "Sent recipient list is empty.")))
  ∧ (∀ r, recipients = [r] → Variant.status r = EmptyString → result run = Returned None).
Proof.
  intros run recipients Hin Hcode Hdec.
  assert (Hbranch :
    bool_decide (http.StatusCode resp ≠ 201) && bool_decide (http.StatusCode resp ≠ 200)
    = false).
  { destruct Hcode as [-> | ->]; reflexivity. }
  unfold run. apply Variant_obtained_run in Hin as (-> & _).
  unfold result. cbn [fst].
  rewrite Variant_interpretResponse_run, Hbranch, Hdec. cbn zeta. fold recipients.
  split.
  - intros Hlen. now rewrite bool_decide_eq_true_2.
  - intros r -> Hr. cbn. now rewrite Hr.
Qed.

(** C1 as stated fails on the second version of the file: the billed
    answer of the specification, with status 201 and no marker, is
    reported as an error, and an unbilled answer that lists one recipient
    is reported as success. *)
Lemma cost_marker_ignored_by_variant :
  (HttpDo sampleSentForm (inr (responseOf 201 billedBody)) ∈ trace variantBilledRun
   ∧ Variant.json_Decode listlessWire (http.Body (responseOf 201 billedBody))
     = inr (variantStatusTextOf billedText [])
   ∧ strings.Contains billedText costMarker = false
   ∧ result variantBilledRun = Returned (Some (errorString "Sent recipient list is empty."))
   ∧ result variantBilledRun ≠ Returned None)
  ∧ (HttpDo sampleSentForm (inr (responseOf 200 listingBody)) ∈ trace variantUnbilledRun
     ∧ Variant.json_Decode listingWire (http.Body (responseOf 200 listingBody))
       = inr (variantStatusTextOf unbilledText [{| Variant.status := EmptyString |}])
     ∧ strings.Contains unbilledText costMarker = true
     ∧ result variantUnbilledRun = Returned None).
Proof.
  repeat split; try reflexivity; try discriminate.
  - vm_compute. apply list_elem_of_here.
  - vm_compute. apply list_elem_of_here.
Qed.

(** ** Validation before the network *)

(** C2, as amended — With no message body, the Twilio sender, for
    credentials that are there (it reads them first, to make its client),
    and the Africa's Talking sender of either version, for any
    credentials, return their validation error, and the run makes no call
    at all: its trace is empty, so it holds no network call. *)
Theorem missing_body_is_rejected_offline
    (w : World) (x : Wire) (vx : Variant.Wire)
    (tc : TwilioCredentials) (credentials : option AfricasTalkingCredentials)
    (receiver : option string) :
  SendTwilioSmsMessage w (Some tc) None receiver = (Returned (Some twilioBodyMissing), [])
  ∧ SendAfricasTalkingSmsMessage w x credentials None receiver
    = (Returned (Some bodyMissing), [])
  ∧ Variant.SendAfricasTalkingSmsMessage w vx credentials None receiver
    = (Returned (Some bodyMissing), [])
  ∧ network_calls (trace (SendTwilioSmsMessage w (Some tc) None receiver)) = 0%nat
  ∧ network_calls (trace (SendAfricasTalkingSmsMessage w x credentials None receiver)) = 0%nat
  ∧ network_calls
      (trace (Variant.SendAfricasTalkingSmsMessage w vx credentials None receiver)) = 0%nat.
Proof. repeat split. Qed.

(** C2 as stated fails for the Twilio sender when the credentials are
    missing too: it panics on the credentials before it looks at the body,
    so that no validation error is returned. *)
Lemma missing_body_unreported_without_credentials :
  SendTwilioSmsMessage rejectingWorld None None (Some "+15550123") = (Panicked, [])
  ∧ ∀ e, result (SendTwilioSmsMessage rejectingWorld None None (Some "+15550123"))
         ≠ Returned (Some e).
Proof. split; [reflexivity |]. intros e. discriminate. Qed.

(** C3 fails on the code: with a body and no receiver, each sender
    dereferences the nil receiver and panics; no error is returned.  (No
    network call has been made by then.) *)
Theorem missing_receiver_panics
    (w : World) (x : Wire) (vx : Variant.Wire)
    (tc : TwilioCredentials) (c : AfricasTalkingCredentials) (text : string) :
  SendTwilioSmsMessage w (Some tc) (Some text) None = (Panicked, [])
  ∧ SendAfricasTalkingSmsMessage w x (Some c) (Some text) None = (Panicked, [])
  ∧ Variant.SendAfricasTalkingSmsMessage w vx (Some c) (Some text) None = (Panicked, []).
Proof. repeat split. Qed.

(** C10 — In the second version of the file, a present body and a receiver
    that contains a comma make the Africa's Talking sender return its
    multiple-receivers error; the run makes no call at all, whatever the
    credentials. *)
Theorem comma_in_receiver_is_rejected_offline
    (w : World) (vx : Variant.Wire) (credentials : option AfricasTalkingCredentials)
    (text to : string) :
  strings.Contains to "," = true →
  Variant.SendAfricasTalkingSmsMessage w vx credentials (Some text) (Some to)
  = (Returned (Some multipleReceivers), [])
  ∧ network_calls
      (trace (Variant.SendAfricasTalkingSmsMessage w vx credentials (Some text) (Some to)))
    = 0%nat.
Proof.
  intros Hcomma.
  assert (H : Variant.SendAfricasTalkingSmsMessage w vx credentials (Some text) (Some to)
              = (Returned (Some multipleReceivers), [])).
  { unfold Variant.SendAfricasTalkingSmsMessage. run.
    destruct (decide (Some text = None)) as [Hn | _]; [discriminate Hn |].
    rewrite Hcomma. reflexivity. }
  rewrite H. split; reflexivity.
Qed.

Lemma comma_in_receiver_is_rejected_offline_witness :
  strings.Contains "+254700000001,+254700000002" "," = true
  ∧ Variant.SendAfricasTalkingSmsMessage billingWorld
      (variantWireDecoding (inl garbledError)) None
      (Some "hello") (Some "+254700000001,+254700000002")
    = (Returned (Some multipleReceivers), []).
Proof.
  split; [reflexivity |].
  apply (comma_in_receiver_is_rejected_offline billingWorld
    (variantWireDecoding (inl garbledError)) None "hello" "+254700000001,+254700000002").
  reflexivity.
Defined.

(** ** The SMTP sender *)

Lemma Atoi_error (s : string) (err : error) :
  strconv.Atoi s = inl err → ∃ cause, err = NumError "Atoi" s cause.
Proof.
  unfold strconv.Atoi. destruct (strconv.ParseInt s) as [cause | n]; [| discriminate].
  intros [= <-]. eauto.
Qed.

(** The loop over the attachments either attaches them all, touching
    neither header nor body, or panics on a missing name; it calls
    nothing. *)
Lemma attachEach_cases (l : list EmailAttachment) (m : gomail.Message) :
  (Forall (fun a => Name a ≠ None) l
   ∧ ∃ m', attachEach l m = (Returned m', [])
           ∧ gomail.header m' = gomail.header m ∧ gomail.body m' = gomail.body m)
  ∨ (¬ Forall (fun a => Name a ≠ None) l ∧ attachEach l m = (Panicked, [])).
Proof.
  revert m. induction l as [|reader more IH]; intros m.
  - left. split; [constructor | exists m; repeat split].
  - cbn [attachEach]. destruct (Name reader) as [name |] eqn:Hname; run.
    + destruct (IH (gomail.Message_Attach name
        [gomail.SetHeader {[ "Content-Type" := ["application/octet-stream"] ]};
         gomail.SetCopyFunc (copyFunc reader)] m)) as [[Hall (m' & -> & Hh & Hb)] | [Hnot ->]].
      * left. split; [constructor; [congruence | exact Hall] |].
        exists m'. repeat split; assumption.
      * right. split; [| reflexivity].
        intros Hall. apply Hnot. now inversion Hall.
    + right. split; [| reflexivity].
      intros Hall. inversion Hall; congruence.
Qed.

Lemma named_dec (attachments : option (list EmailAttachment)) :
  named attachments ∨ ¬ named attachments.
Proof.
  destruct attachments as [l |].
  - destruct (attachEach_cases l gomail.NewMessage) as [[Hall _] | [Hnot _]].
    + left. intros l' [= <-]. exact Hall.
    + right. intros H. apply Hnot, H. reflexivity.
  - left. intros l [=].
Qed.

(** The message is built, with the receivers as its [To] field, exactly
    when the receivers are there and every attachment has a name; else
    building panics.  Nothing is called either way. *)
Lemma buildMessage_cases (c : SMTPCredentials) (subject message : option string)
    (isHtml : bool) (attachments : option (list EmailAttachment))
    (receivers : option (list string)) :
  (∃ to m, receivers = Some to ∧ named attachments
           ∧ buildMessage c subject message isHtml attachments receivers = (Returned m, [])
           ∧ gomail.header m !! "To" = Some to)
  ∨ ((receivers = None ∨ ¬ named attachments)
     ∧ buildMessage c subject message isHtml attachments receivers = (Panicked, [])).
Proof.
  unfold buildMessage. destruct receivers as [to |]; run; [| right; split; [left |]; reflexivity].
  set (m0 := match message with
             | Some text => gomail.Message_SetBody _ text _
             | None => _
             end).
  assert (Hto : gomail.header m0 !! "To" = Some to).
  { unfold m0. destruct message, subject; cbn [gomail.header gomail.Message_SetBody
      gomail.Message_SetHeader]; now simplify_map_eq. }
  destruct attachments as [l |].
  - destruct (attachEach_cases l m0) as [[Hall (m' & -> & Hh & _)] | [Hnot ->]].
    + left. exists to, m'. repeat split; [intros l' [= <-]; exact Hall | now rewrite Hh].
    + right. split; [right | reflexivity]. intros H. apply Hnot, H. reflexivity.
  - left. exists to, m0. repeat split; [intros l [=] | exact Hto].
Qed.

(** With credentials that are there, the sender is the building of the
    message followed by the look at the port. *)
Lemma SendSMTP_built (w : World) (c : SMTPCredentials) (subject message : option string)
    (isHtml : bool) (attachments : option (list EmailAttachment))
    (receivers : option (list string)) (m : gomail.Message) :
  buildMessage c subject message isHtml attachments receivers = (Returned m, []) →
  SendSMTPEmailMessage w (Some c) subject message isHtml attachments receivers =
  match strconv.Atoi (Port c) with
  | inl err => (Returned (Some (invalidPort w err)), [])
  | inr port =>
      (Returned (gomail_DialAndSend w (dialerOf c port) m),
       [SmtpDialAndSend (dialerOf c port) m])
  end.
Proof.
  intros Hb. unfold SendSMTPEmailMessage. run. rewrite Hb.
  destruct (strconv.Atoi (Port c)); reflexivity.
Qed.

Lemma SendSMTP_unbuilt (w : World) (c : SMTPCredentials) (subject message : option string)
    (isHtml : bool) (attachments : option (list EmailAttachment))
    (receivers : option (list string)) :
  buildMessage c subject message isHtml attachments receivers = (Panicked, []) →
  SendSMTPEmailMessage w (Some c) subject message isHtml attachments receivers
  = (Panicked, []).
Proof. intros Hb. unfold SendSMTPEmailMessage. run. now rewrite Hb. Qed.

(** C6, as amended — For credentials whose [Port] does not parse
    ([strconv.Atoi] reports an error), and receivers and attachment names
    that are there (the sender reads them first), the SMTP sender returns
    the error "Invalid port number: ..." that wraps the [*NumError] of
    [Atoi]; that error carries the port text in [Num] and prints it quoted,
    and the run makes no call: nothing is dialed. *)
Theorem invalid_port_is_reported_before_dialing
    (w : World) (c : SMTPCredentials) (subject message : option string) (isHtml : bool)
    (attachments : option (list EmailAttachment)) (to : list string) (err : error) :
  strconv.Atoi (Port c) = inl err →
  named attachments →
  let run := SendSMTPEmailMessage w (Some c) subject message isHtml attachments (Some to) in
  run = (Returned (Some (invalidPort w err)), [])
  ∧ network_calls (trace run) = 0%nat
  ∧ (∃ cause, err = NumError "Atoi" (Port c) cause)
  ∧ strings.Contains (fmt.Error (strconv_Quote w) (invalidPort w err))
      (strconv_Quote w (Port c)) = true.
Proof.
  intros Hport Hnamed run.
  assert (Hrun : run = (Returned (Some (invalidPort w err)), [])).
  { unfold run.
    destruct (buildMessage_cases c subject message isHtml attachments (Some to))
      as [(to' & m & _ & _ & Hb & _) | [[Hnone | Hnot] _]].
    - rewrite (SendSMTP_built _ _ _ _ _ _ _ _ Hb), Hport. reflexivity.
    - discriminate Hnone.
    - contradiction. }
  rewrite Hrun. repeat split.
  - destruct (Atoi_error _ _ Hport) as (cause & ->). eauto.
  - destruct (Atoi_error _ _ Hport) as (cause & ->).
    rewrite invalidPort_text. cbn [fmt.Error].
    do 4 apply Contains_append_r. apply Contains_here, HasPrefix_append.
Qed.

Lemma invalid_port_is_reported_before_dialing_witness :
  strconv.Atoi "smtp" = inl (NumError "Atoi" "smtp" strconv.ErrSyntax)
  ∧ SendSMTPEmailMessage rejectingWorld (Some (sampleSMTP "smtp")) (Some "Hello")
      (Some "How are you?") false None (Some ["ann@example.org"])
    = (Returned (Some (wrapError
         ("Invalid port number: strconv.Atoi: parsing " +:+ dquote +:+ "smtp" +:+ dquote
          +:+ ": invalid syntax")
         (NumError "Atoi" "smtp" strconv.ErrSyntax))), []).
Proof.
  split; [reflexivity |].
  refine (proj1 (invalid_port_is_reported_before_dialing rejectingWorld (sampleSMTP "smtp")
    (Some "Hello") (Some "How are you?") false None ["ann@example.org"]
    (NumError "Atoi" "smtp" strconv.ErrSyntax) _ _)).
  - reflexivity.
  - intros l H. discriminate H.
Defined.

(** C6 as stated fails when the receivers are missing: the port does not
    parse, and the run panics on the receivers before it looks at the
    port, so that no error is returned. *)
Lemma invalid_port_unreported_without_receivers :
  strconv.Atoi (Port (sampleSMTP "smtp")) = inl (NumError "Atoi" "smtp" strconv.ErrSyntax)
  ∧ SendSMTPEmailMessage mailingWorld (Some (sampleSMTP "smtp")) (Some "Hello")
      (Some "How are you?") false None None
    = (Panicked, [])
  ∧ ∀ e, result (SendSMTPEmailMessage mailingWorld (Some (sampleSMTP "smtp")) (Some "Hello")
                   (Some "How are you?") false None None)
         ≠ Returned (Some e).
Proof. split; [reflexivity |]. split; [reflexivity |]. intros e. discriminate. Qed.

(** ** What gomail makes of an attachment *)

Lemma Contains_separator (c : ascii) (rest : string) :
  strings.Contains (String c rest) "/" = Ascii.eqb c "/" || strings.Contains rest "/".
Proof.
  cbn [strings.Contains strings.HasPrefix]. now destruct rest, (Ascii.eqb c "/").
Qed.

Lemma stripTrailing_plain (path : string) :
  strings.Contains path "/" = false → filepath.stripTrailing path = path.
Proof.
  induction path as [|c rest IH]; [reflexivity |].
  rewrite Contains_separator. cbn [filepath.stripTrailing].
  destruct (Ascii.eqb c "/") eqn:Hc; [discriminate |].
  cbn [orb]. intros Hrest. rewrite (IH Hrest). now destruct rest.
Qed.

Lemma lastElement_plain (path : string) :
  strings.Contains path "/" = false → filepath.lastElement path = path.
Proof.
  destruct path as [|c rest]; [reflexivity |].
  rewrite Contains_separator. cbn [filepath.lastElement].
  destruct (Ascii.eqb c "/") eqn:Hc; [discriminate |].
  cbn [orb]. now intros ->.
Qed.

(** A name that is not empty and holds no separator is its own base. *)
Lemma Base_plain (name : string) :
  name ≠ EmptyString → strings.Contains name "/" = false → filepath.Base name = name.
Proof.
  intros Hne Hplain. destruct name as [|c rest]; [now contradiction Hne |].
  unfold filepath.Base. rewrite (stripTrailing_plain _ Hplain), (lastElement_plain _ Hplain).
  reflexivity.
Qed.

Ltac sextets := zify; Z.div_mod_to_equations; lia.

Lemma index_char (n : nat) : (n < 64)%nat → base64.index (base64.char n) = Some n.
Proof. intros H. do 64 (destruct n as [|n]; [reflexivity |]). lia. Qed.

Lemma char_not_pad (n : nat) : (n < 64)%nat → Byte.eqb (base64.char n) base64.pad = false.
Proof. intros H. do 64 (destruct n as [|n]; [reflexivity |]). lia. Qed.

Lemma pad_is_pad : Byte.eqb base64.pad base64.pad = true.
Proof. reflexivity. Qed.

Lemma byteOf_eq (n : nat) (b : Byte.byte) : n = Byte.to_nat b → base64.byteOf n = b.
Proof. intros ->. unfold base64.byteOf. now rewrite Byte.of_to_nat. Qed.

Lemma Decode_Encode_bounded (n : nat) (src : bytes) :
  (length src ≤ n)%nat → base64.Decode (base64.Encode src) = Some src.
Proof.
  revert src. induction n as [|n IH]; intros src Hlen.
  - destruct src; [reflexivity | cbn in Hlen; lia].
  - destruct src as [|a [|b [|c rest]]]; [reflexivity | | |].
    + pose proof (Byte.to_nat_bounded a) as Ha.
      cbn [base64.Encode base64.Decode].
      rewrite !index_char by sextets. rewrite !pad_is_pad.
      do 2 f_equal. apply byteOf_eq. sextets.
    + pose proof (Byte.to_nat_bounded a) as Ha. pose proof (Byte.to_nat_bounded b) as Hb.
      cbn [base64.Encode base64.Decode].
      rewrite !index_char by sextets. rewrite char_not_pad by sextets. rewrite !pad_is_pad.
      do 2 f_equal; [| f_equal]; apply byteOf_eq; sextets.
    + pose proof (Byte.to_nat_bounded a) as Ha. pose proof (Byte.to_nat_bounded b) as Hb.
      pose proof (Byte.to_nat_bounded c) as Hc.
      cbn [base64.Encode base64.Decode].
      rewrite !index_char by sextets. rewrite !char_not_pad by sextets.
      rewrite IH by (cbn in Hlen; lia).
      do 2 f_equal; [| f_equal; [| f_equal]]; apply byteOf_eq; sextets.
Qed.

(** Decoding gives back what was encoded. *)
Lemma Decode_Encode (src : bytes) : base64.Decode (base64.Encode src) = Some src.
Proof. now apply (Decode_Encode_bounded (length src)). Qed.

Lemma char_no_break (n : nat) : gomail.isLineBreak (base64.char n) = false.
Proof.
  destruct (decide (n < 64)%nat) as [H | H].
  - do 64 (destruct n as [|n]; [reflexivity |]). lia.
  - unfold base64.char. rewrite nth_overflow; [reflexivity |]. cbn. lia.
Qed.

Lemma Encode_no_break_bounded (n : nat) (src : bytes) :
  (length src ≤ n)%nat → Forall (fun c => gomail.isLineBreak c = false) (base64.Encode src).
Proof.
  revert src. induction n as [|n IH]; intros src Hlen.
  - destruct src; [constructor | cbn in Hlen; lia].
  - destruct src as [|a [|b [|c rest]]]; cbn [base64.Encode];
      repeat (constructor; [first [apply char_no_break | reflexivity] |]);
      try constructor.
    apply IH. cbn in Hlen. lia.
Qed.

(** The line breaks are all that the line writer adds. *)
Lemma lineWriter_breaks_only (lineLen : nat) (p : bytes) :
  Forall (fun c => gomail.isLineBreak c = false) p →
  filter (fun c => gomail.isLineBreak c = false) (gomail.lineWriter lineLen p) = p.
Proof.
  intros Hp. revert lineLen. induction Hp as [|c rest Hc _ IH]; intros lineLen.
  - reflexivity.
  - cbn [gomail.lineWriter]. destruct (lineLen <? 76)%nat.
    + rewrite filter_cons_True by exact Hc. now rewrite IH.
    + rewrite filter_cons_False by (cbn; discriminate).
      rewrite filter_cons_False by (cbn; discriminate).
      rewrite filter_cons_True by exact Hc. now rewrite IH.
Qed.

(** A reader of the mail gets back exactly what the copy function of an
    attachment wrote. *)
Lemma readBack_writeBody (f : bytes -> bytes * option error) :
  gomail.readBack (gomail.writeBody f).1 = Some (f []).1.
Proof.
  unfold gomail.readBack, gomail.writeBody. destruct (f []) as [written err]. cbn [fst].
  rewrite lineWriter_breaks_only by apply (Encode_no_break_bounded (length written)), le_n.
  apply Decode_Encode.
Qed.

(** The attachment that the loop makes of an entry with a name. *)
Lemma carries_attached (reader : EmailAttachment) (name : string) :
  Name reader = Some name →
  carries reader
    {| gomail.Name := filepath.Base name;
       gomail.settings :=
         [gomail.SetHeader {[ "Content-Type" := ["application/octet-stream"] ]};
          gomail.SetCopyFunc (copyFunc reader)] |}.
Proof.
  intros Hname. split; [eauto |]. split; [reflexivity |].
  exists (copyFunc reader). split; [reflexivity |]. split; [reflexivity |].
  rewrite readBack_writeBody. reflexivity.
Qed.

(** One named attachment, receivers that are there: the message is built,
    with that one attachment, kept under the base of its name. *)
Lemma single_attachment_built
    (c : SMTPCredentials) (subject message : option string) (isHtml : bool)
    (name : string) (data : Reader) (to : list string) :
  let reader := {| Data := data; Name := Some name |} in
  ∃ m : gomail.Message,
    buildMessage c subject message isHtml (Some [reader]) (Some to) = (Returned m, [])
    ∧ gomail.attachments m =
        [{| gomail.Name := filepath.Base name;
            gomail.settings :=
              [gomail.SetHeader {[ "Content-Type" := ["application/octet-stream"] ]};
               gomail.SetCopyFunc (copyFunc reader)] |}].
Proof.
  intros reader. unfold buildMessage. run. cbn [attachEach Name]. run.
  eexists. split; [reflexivity |].
  destruct message, subject; reflexivity.
Qed.

(** C7, as amended — For every SMTP send (a run of the sender that hands a
    message to the dialer) whose attachment list holds one entry with a
    name and a byte source, the message handed over has exactly one
    attachment; gomail keeps it under the base of the name given
    ([filepath.Base]), which is the name given whenever that is not empty
    and holds no path separator; the content type it declares is exactly
    "application/octet-stream"; and its body in the mail, the base64 text
    of what the copy function wrote, reads back as exactly the bytes of
    the source. *)
Theorem single_attachment_round_trip
    (w : World) (credentials : option SMTPCredentials) (subject message : option string)
    (isHtml : bool) (name : string) (data : Reader) (receivers : option (list string))
    (dialer : gomail.Dialer) (m : gomail.Message) :
  SmtpDialAndSend dialer m
    ∈ trace (SendSMTPEmailMessage w credentials subject message isHtml
               (Some [{| Data := data; Name := Some name |}]) receivers) →
  ∃ (a : gomail.attachment) (f : bytes -> bytes * option error),
    gomail.attachments m = [a]
    ∧ gomail.Name a = filepath.Base name
    ∧ (name ≠ EmptyString → strings.Contains name "/" = false → gomail.Name a = name)
    ∧ declared (gomail.settings a) "Content-Type" = Some ["application/octet-stream"]
    ∧ copier (gomail.settings a) = Some f
    ∧ (∀ buffer, f buffer = ((buffer ++ delivered data)%list, failure data))
    ∧ (f []).1 = delivered data
    ∧ gomail.writeBody f
      = (gomail.lineWriter 0 (base64.Encode (delivered data)), failure data)
    ∧ gomail.readBack (gomail.writeBody f).1 = Some (delivered data).
Proof.
  intros Hin.
  destruct credentials as [c |]; [| inversion Hin].
  destruct receivers as [to |]; [| inversion Hin].
  destruct (single_attachment_built c subject message isHtml name data to)
    as (m0 & Hb & Hatt).
  rewrite (SendSMTP_built w _ _ _ _ _ _ _ Hb) in Hin.
  destruct (strconv.Atoi (Port c)) as [err | port]; [inversion Hin |].
  apply list_elem_of_singleton in Hin. injection Hin as -> ->.
  eexists _, (copyFunc {| Data := data; Name := Some name |}).
  split; [exact Hatt |]. split; [reflexivity |].
  split; [intros Hne Hplain; now apply Base_plain |].
  do 5 (split; [reflexivity |]).
  rewrite readBack_writeBody. reflexivity.
Qed.

Lemma single_attachment_round_trip_witness :
  reportRun
    = (Returned None, [SmtpDialAndSend (dialerOf (sampleSMTP "587") 587) reportMessage])
  ∧ ∃ (a : gomail.attachment) (f : bytes -> bytes * option error),
      gomail.attachments reportMessage = [a]
      ∧ gomail.Name a = "report.pdf"
      ∧ declared (gomail.settings a) "Content-Type" = Some ["application/octet-stream"]
      ∧ copier (gomail.settings a) = Some f
      ∧ gomail.writeBody f = (bytes_of_string "JVBE", None)
      ∧ gomail.readBack (bytes_of_string "JVBE") = Some reportBytes.
Proof.
  split; [reflexivity |].
  destruct (single_attachment_round_trip mailingWorld (Some (sampleSMTP "587"))
    (Some "Report") None true "report.pdf" (NewBuffer reportBytes)
    (Some ["ann@example.org"]) (dialerOf (sampleSMTP "587") 587) reportMessage)
    as (a & f & Hatt & _ & Hname & Hct & Hcopy & _ & _ & Hbody & Hback).
  - vm_compute. apply list_elem_of_here.
  - exists a, f. split; [exact Hatt |].
    split; [apply Hname; [discriminate | reflexivity] |].
    split; [exact Hct |]. split; [exact Hcopy |]. split; [exact Hbody |].
    rewrite Hbody in Hback. exact Hback.
Defined.

(** C7 as stated fails for a name with a path separator: the attachment
    given as "reports/q1.pdf" is sent, and the mail holds it as
    "q1.pdf". *)
Lemma attachment_renamed_to_base :
  filedReportRun
    = (Returned None,
       [SmtpDialAndSend (dialerOf (sampleSMTP "587") 587) filedReportMessage])
  ∧ Name filedReport = Some "reports/q1.pdf"
  ∧ gomail.Name <$> gomail.attachments filedReportMessage = ["q1.pdf"]
  ∧ gomail.Name <$> gomail.attachments filedReportMessage ≠ ["reports/q1.pdf"].
Proof. repeat split. discriminate. Qed.

(** C9 — The SMTP sender reads the receivers and each supplied attachment's
    name while it builds the message, before it looks at the port.  So the
    run returns, rather than panics, only if the receivers are there and
    every supplied attachment has a name (and, with the credentials there
    too, it then does return); a run that panics has called nothing, and a
    missing receiver list or name makes the run panic whatever the port
    is.  An empty receiver list that is there is passed through: the
    message carries an empty [To] field and the sender answers what the
    port check or the dialer answers. *)
Theorem smtp_total_only_with_receivers_and_names
    (w : World) (credentials : option SMTPCredentials) (subject message : option string)
    (isHtml : bool) (attachments : option (list EmailAttachment))
    (receivers : option (list string)) :
  let run := SendSMTPEmailMessage w credentials subject message isHtml attachments receivers in
  (result run ≠ Panicked ↔ credentials ≠ None ∧ receivers ≠ None ∧ named attachments)
  ∧ (result run = Panicked → trace run = [])
  ∧ (receivers = None ∨ ¬ named attachments → run = (Panicked, []))
  ∧ (∀ c, credentials = Some c → receivers = Some [] → named attachments →
       ∃ m, buildMessage c subject message isHtml attachments (Some []) = (Returned m, [])
            ∧ gomail.header m !! "To" = Some []
            ∧ run = match strconv.Atoi (Port c) with
                    | inl err => (Returned (Some (invalidPort w err)), [])
                    | inr port =>
                        (Returned (gomail_DialAndSend w (dialerOf c port) m),
                         [SmtpDialAndSend (dialerOf c port) m])
                    end).
Proof.
  intros run. unfold run. destruct credentials as [c |].
  - destruct (buildMessage_cases c subject message isHtml attachments receivers)
      as [(to & m & -> & Hnamed & Hb & Hto) | [Hmissing Hb]].
    + rewrite (SendSMTP_built w _ _ _ _ _ _ _ Hb).
      split; [split | split; [| split]].
      * intros _. repeat split; [discriminate | discriminate | exact Hnamed].
      * intros _. destruct (strconv.Atoi (Port c)); discriminate.
      * destruct (strconv.Atoi (Port c)); discriminate.
      * intros [Hnone | Hnot]; [discriminate Hnone | contradiction].
      * intros c' [= <-] [= ->] _. exists m. repeat split; assumption.
    + rewrite (SendSMTP_unbuilt w _ _ _ _ _ _ Hb).
      split; [split | split; [| split]].
      * intros Hret. now contradiction Hret.
      * intros (_ & Hr & Hn). destruct Hmissing; contradiction.
      * reflexivity.
      * reflexivity.
      * intros c' [= <-] -> Hnamed. destruct Hmissing; [discriminate | contradiction].
  - split; [split | split; [| split]].
    + intros Hret. now contradiction Hret.
    + intros (Hc & _). now contradiction Hc.
    + reflexivity.
    + reflexivity.
    + intros c [=].
Qed.

Lemma smtp_total_only_with_receivers_and_names_witness :
  SendSMTPEmailMessage mailingWorld (Some (sampleSMTP "smtp")) None None false None None
    = (Panicked, [])
  ∧ SendSMTPEmailMessage mailingWorld (Some (sampleSMTP "smtp")) None None false
      (Some [{| Data := NewBuffer reportBytes; Name := None |}]) (Some ["ann@example.org"])
    = (Panicked, [])
  ∧ ∃ m, gomail.header m !! "To" = Some []
         ∧ SendSMTPEmailMessage mailingWorld (Some (sampleSMTP "587")) None None false None
             (Some [])
           = (Returned None, [SmtpDialAndSend (dialerOf (sampleSMTP "587") 587) m]).
Proof.
  split; [| split].
  - refine (proj1 (proj2 (proj2 (smtp_total_only_with_receivers_and_names mailingWorld
      (Some (sampleSMTP "smtp")) None None false None None))) _).
    left. reflexivity.
  - refine (proj1 (proj2 (proj2 (smtp_total_only_with_receivers_and_names mailingWorld
      (Some (sampleSMTP "smtp")) None None false
      (Some [{| Data := NewBuffer reportBytes; Name := None |}])
      (Some ["ann@example.org"])))) _).
    right. intros H. specialize (H _ eq_refl). inversion H as [| ? ? Hname _].
    apply Hname. reflexivity.
  - destruct (proj2 (proj2 (proj2 (smtp_total_only_with_receivers_and_names mailingWorld
      (Some (sampleSMTP "587")) None None false None (Some []))))
      (sampleSMTP "587") eq_refl eq_refl) as (m & _ & Hto & Hrun).
    + intros l H. discriminate H.
    + exists m. split; [exact Hto | exact Hrun].
Defined.

(** * Further properties of the senders *)

(** ** The mail that is sent *)

Ltac step :=
  cbv beta iota zeta delta [mbind mret M_bind M_ret deref call defer result trace fst snd];
  cbn [app].

(** The loop over the attachments, when it returns, has called nothing,
    has left header and body alone and has appended one attachment for
    each entry, in the order of the list. *)
Lemma attachEach_attaches (l : list EmailAttachment) (m m' : gomail.Message)
    (t : list event) :
  attachEach l m = (Returned m', t) →
  t = [] ∧ gomail.header m' = gomail.header m ∧ gomail.body m' = gomail.body m
  ∧ ∃ new, gomail.attachments m' = (gomail.attachments m ++ new)%list
           ∧ Forall2 carries l new.
Proof.
  revert m. induction l as [|reader more IH]; intros m.
  - intros [= <- <-]. repeat split. exists []. split; [now rewrite app_nil_r | constructor].
  - cbn [attachEach]. destruct (Name reader) as [name |] eqn:Hname; step; [| discriminate].
    destruct (attachEach more _) as [o t'] eqn:Hmore.
    destruct o as [m'' |]; [| discriminate]. intros [= <- <-].
    apply IH in Hmore as (-> & Hh & Hb & new & Hatt & Hall).
    repeat split; [exact Hh | exact Hb |].
    eexists (_ :: new). split.
    + rewrite Hatt. cbn [gomail.attachments gomail.Message_Attach].
      rewrite <- (assoc_L (++)). reflexivity.
    + constructor; [| exact Hall]. now apply carries_attached.
Qed.

(** What building gives, when it returns. *)
Lemma buildMessage_returns (c : SMTPCredentials) (subject message : option string)
    (isHtml : bool) (attachments : option (list EmailAttachment))
    (receivers : option (list string)) (m : gomail.Message) (t : list event) :
  buildMessage c subject message isHtml attachments receivers = (Returned m, t) →
  t = []
  ∧ (∃ to, receivers = Some to
      ∧ gomail.header m =
          match subject with
          | Some s => <["Subject" := [s]]> (<["To" := to]> (<["From" := [Sender c]]> ∅))
          | None => <["To" := to]> (<["From" := [Sender c]]> ∅)
          end)
  ∧ gomail.body m =
      match message with
      | Some text => Some (if isHtml then "text/html" else "text/plain", text)
      | None => None
      end
  ∧ Forall2 carries (supplied attachments) (gomail.attachments m).
Proof.
  unfold buildMessage. destruct receivers as [to |]; step; [| discriminate].
  set (m0 := match message with
             | Some text => gomail.Message_SetBody _ text _
             | None => _
             end).
  assert (H0 : gomail.header m0 =
                 match subject with
                 | Some s => <["Subject" := [s]]> (<["To" := to]> (<["From" := [Sender c]]> ∅))
                 | None => <["To" := to]> (<["From" := [Sender c]]> ∅)
                 end
               ∧ gomail.body m0 =
                   match message with
                   | Some text => Some (if isHtml then "text/html" else "text/plain", text)
                   | None => None
                   end
               ∧ gomail.attachments m0 = []).
  { unfold m0. destruct message, subject; repeat split. }
  destruct H0 as (Hh0 & Hb0 & Ha0).
  destruct attachments as [l |]; cbn [supplied].
  - destruct (attachEach l m0) as [o t'] eqn:Hl. intros [= -> ->].
    apply attachEach_attaches in Hl as (-> & Hh & Hb & new & Hatt & Hall).
    rewrite Hh, Hb, Hatt, Ha0. repeat split; eauto.
  - intros [= <- <-]. rewrite Ha0. repeat split; eauto.
Qed.

(** A run of the SMTP sender that dialed: what was built, with which
    dialer, and that the run is this one call. *)
Lemma SendSMTP_dialed (w : World) (credentials : option SMTPCredentials)
    (subject message : option string) (isHtml : bool)
    (attachments : option (list EmailAttachment)) (receivers : option (list string))
    (d : gomail.Dialer) (m : gomail.Message) :
  SmtpDialAndSend d m
    ∈ trace (SendSMTPEmailMessage w credentials subject message isHtml attachments receivers) →
  ∃ c port,
    credentials = Some c
    ∧ buildMessage c subject message isHtml attachments receivers = (Returned m, [])
    ∧ strconv.Atoi (Port c) = inr port
    ∧ d = dialerOf c port
    ∧ SendSMTPEmailMessage w credentials subject message isHtml attachments receivers
      = (Returned (gomail_DialAndSend w d m), [SmtpDialAndSend d m]).
Proof.
  intros Hin. destruct credentials as [c |]; [| inversion Hin].
  destruct (buildMessage_cases c subject message isHtml attachments receivers)
    as [(to & m0 & -> & _ & Hb & _) | [_ Hb]].
  - rewrite (SendSMTP_built w _ _ _ _ _ _ _ Hb) in Hin |- *.
    destruct (strconv.Atoi (Port c)) as [err | port] eqn:Hport; [inversion Hin |].
    apply list_elem_of_singleton in Hin. injection Hin as -> ->.
    exists c, port. repeat split; assumption.
  - rewrite (SendSMTP_unbuilt w _ _ _ _ _ _ Hb) in Hin. inversion Hin.
Qed.

(** X1 — The mail handed to the dialer has the sender's address as [From],
    the receivers as [To], a [Subject] exactly when a subject is given, and
    no other header field; it has a body exactly when a message is given,
    of type "text/html" with the HTML flag and "text/plain" without. *)
Theorem sent_mail_header_and_body
    (w : World) (c : SMTPCredentials) (subject message : option string) (isHtml : bool)
    (attachments : option (list EmailAttachment)) (receivers : option (list string))
    (d : gomail.Dialer) (m : gomail.Message) :
  SmtpDialAndSend d m
    ∈ trace (SendSMTPEmailMessage w (Some c) subject message isHtml attachments receivers) →
  gomail.header m !! "From" = Some [Sender c]
  ∧ gomail.header m !! "To" = receivers
  ∧ gomail.header m !! "Subject" = (fun s => [s]) <$> subject
  ∧ (∀ field, is_Some (gomail.header m !! field) →
       field = "From" ∨ field = "To" ∨ (field = "Subject" ∧ subject ≠ None))
  ∧ gomail.body m
    = (fun text => (if isHtml then "text/html" else "text/plain", text)) <$> message.
Proof.
  intros Hin. apply SendSMTP_dialed in Hin as (c' & port & [= <-] & Hb & _).
  apply buildMessage_returns in Hb as (_ & (to & -> & Hh) & Hbody & _).
  rewrite Hh, Hbody. destruct subject as [s |], message as [text |]; cbn [fmap option_fmap option_map].
  all: repeat split; try (now simplify_map_eq).
  all: intros field [v Hv].
  all: destruct (decide (field = "From")) as [-> | ?]; [now left |].
  all: destruct (decide (field = "To")) as [-> | ?]; [now right; left |].
  all: destruct (decide (field = "Subject")) as [-> | ?];
         [right; right; split; [reflexivity | discriminate] |].
  all: now simplify_map_eq.
Qed.

Lemma sent_mail_header_and_body_witness :
  twoReportsRun
    = (Returned (Some (errorString "dial tcp: address 70000: invalid port")),
       [SmtpDialAndSend (dialerOf (sampleSMTP "70000") 70000) twoReportsMessage])
  ∧ gomail.header twoReportsMessage !! "To" = Some ["ann@example.org"; "bob@example.org"]
  ∧ gomail.header twoReportsMessage !! "Subject" = None
  ∧ gomail.body twoReportsMessage = Some ("text/html", "<p>Hi</p>").
Proof.
  split; [reflexivity |].
  destruct (sent_mail_header_and_body refusingWorld (sampleSMTP "70000") None
    (Some "<p>Hi</p>") true (Some [report; notes])
    (Some ["ann@example.org"; "bob@example.org"])
    (dialerOf (sampleSMTP "70000") 70000) twoReportsMessage)
    as (_ & Hto & Hsubject & _ & Hbody).
  - vm_compute. apply list_elem_of_here.
  - repeat split; assumption.
Defined.

(** X2 — The mail handed to the dialer has one attachment for each entry of
    the list, in the order of the list (none when no list is given); each
    is kept under the base ([filepath.Base]) of its entry's name, declares
    "application/octet-stream" and copies the bytes of its own entry's
    reader, which its base64 body in the mail reads back as. *)
Theorem sent_mail_attachments_in_order
    (w : World) (credentials : option SMTPCredentials) (subject message : option string)
    (isHtml : bool) (attachments : option (list EmailAttachment))
    (receivers : option (list string)) (d : gomail.Dialer) (m : gomail.Message) :
  SmtpDialAndSend d m
    ∈ trace (SendSMTPEmailMessage w credentials subject message isHtml attachments receivers) →
  Forall2 carries (supplied attachments) (gomail.attachments m)
  ∧ length (gomail.attachments m) = length (supplied attachments).
Proof.
  intros Hin. apply SendSMTP_dialed in Hin as (c & port & _ & Hb & _).
  apply buildMessage_returns in Hb as (_ & _ & _ & Hall).
  split; [exact Hall |]. symmetry. exact (Forall2_length _ _ _ Hall).
Qed.

Lemma sent_mail_attachments_in_order_witness :
  gomail.Name <$> gomail.attachments twoReportsMessage = ["report.pdf"; "notes.txt"]
  ∧ Forall2 carries [report; notes] (gomail.attachments twoReportsMessage)
  ∧ length (gomail.attachments twoReportsMessage) = 2%nat.
Proof.
  split; [reflexivity |].
  apply (sent_mail_attachments_in_order refusingWorld (Some (sampleSMTP "70000")) None
    (Some "<p>Hi</p>") true (Some [report; notes])
    (Some ["ann@example.org"; "bob@example.org"])
    (dialerOf (sampleSMTP "70000") 70000) twoReportsMessage).
  vm_compute. apply list_elem_of_here.
Defined.

(** X3 — A run of the SMTP sender that dials does so once, with a dialer
    for the host, user and password of the credentials and for the port
    exactly as [strconv.Atoi] read it, of whatever size or sign; the run
    makes no other call and returns exactly what the dialer answers. *)
Theorem dial_is_the_only_call
    (w : World) (credentials : option SMTPCredentials) (subject message : option string)
    (isHtml : bool) (attachments : option (list EmailAttachment))
    (receivers : option (list string)) (d : gomail.Dialer) (m : gomail.Message) :
  let run := SendSMTPEmailMessage w credentials subject message isHtml attachments receivers in
  SmtpDialAndSend d m ∈ trace run →
  run = (Returned (gomail_DialAndSend w d m), [SmtpDialAndSend d m])
  ∧ ∃ c, credentials = Some c
         ∧ strconv.Atoi (Port c) = inr (gomail.Port d)
         ∧ gomail.Host d = Host c
         ∧ gomail.Username d = User c
         ∧ gomail.Password d = Password c.
Proof.
  intros run Hin. apply SendSMTP_dialed in Hin as (c & port & -> & _ & Hport & -> & Hrun).
  split; [exact Hrun |]. exists c. repeat split. exact Hport.
Qed.

Lemma dial_is_the_only_call_witness :
  strconv.Atoi "70000" = inr 70000
  ∧ twoReportsRun
    = (Returned (Some (errorString "dial tcp: address 70000: invalid port")),
       [SmtpDialAndSend (dialerOf (sampleSMTP "70000") 70000) twoReportsMessage]).
Proof.
  split; [reflexivity |].
  refine (proj1 (dial_is_the_only_call refusingWorld (Some (sampleSMTP "70000")) None
    (Some "<p>Hi</p>") true (Some [report; notes])
    (Some ["ann@example.org"; "bob@example.org"])
    (dialerOf (sampleSMTP "70000") 70000) twoReportsMessage _)).
  vm_compute. apply list_elem_of_here.
Defined.

(** X4 — The TLS flag of the credentials has no effect: two credentials
    that agree on host, port, user, sender address and password, whatever
    their TLS flags, make the SMTP sender issue the same calls with the
    same operands and return the same. *)
Theorem tls_flag_has_no_effect
    (w : World) (c c' : SMTPCredentials) (subject message : option string)
    (isHtml : bool) (attachments : option (list EmailAttachment))
    (receivers : option (list string)) :
  Host c = Host c' → Port c = Port c' → User c = User c' →
  Sender c = Sender c' → Password c = Password c' →
  SendSMTPEmailMessage w (Some c) subject message isHtml attachments receivers
  = SendSMTPEmailMessage w (Some c') subject message isHtml attachments receivers.
Proof.
  destruct c as [h p u s pw tls], c' as [h' p' u' s' pw' tls'].
  cbn [Host Port User Sender Password]. intros -> -> -> -> ->.
  unfold SendSMTPEmailMessage, buildMessage. reflexivity.
Qed.

Lemma tls_flag_has_no_effect_witness :
  UseTLS (withUseTLS true (sampleSMTP "587")) ≠ UseTLS (sampleSMTP "587")
  ∧ SendSMTPEmailMessage mailingWorld (Some (withUseTLS true (sampleSMTP "587")))
      (Some "Report") None true (Some [report]) (Some ["ann@example.org"])
    = reportRun.
Proof.
  split; [discriminate |].
  apply (tls_flag_has_no_effect mailingWorld (withUseTLS true (sampleSMTP "587"))
    (sampleSMTP "587")); reflexivity.
Defined.

(** X5 — The SMTP sender returns success only after the dialer accepted
    the mail: a run that returns [nil] made exactly one call, the dial, and
    the dialer answered [nil] to it. *)
Theorem smtp_success_means_accepted
    (w : World) (credentials : option SMTPCredentials) (subject message : option string)
    (isHtml : bool) (attachments : option (list EmailAttachment))
    (receivers : option (list string)) :
  let run := SendSMTPEmailMessage w credentials subject message isHtml attachments receivers in
  result run = Returned None →
  ∃ d m, trace run = [SmtpDialAndSend d m] ∧ gomail_DialAndSend w d m = None.
Proof.
  intros run. unfold run. destruct credentials as [c |]; [| discriminate].
  destruct (buildMessage_cases c subject message isHtml attachments receivers)
    as [(to & m & -> & _ & Hb & _) | [_ Hb]].
  - rewrite (SendSMTP_built w _ _ _ _ _ _ _ Hb).
    destruct (strconv.Atoi (Port c)) as [err | port]; [discriminate |].
    intros [= Hnil]. exists (dialerOf c port), m. split; [reflexivity | exact Hnil].
  - rewrite (SendSMTP_unbuilt w _ _ _ _ _ _ Hb). discriminate.
Qed.

Lemma smtp_success_means_accepted_witness :
  result reportRun = Returned None
  ∧ ∃ d m, trace reportRun = [SmtpDialAndSend d m]
           ∧ gomail_DialAndSend mailingWorld d m = None.
Proof.
  split; [reflexivity |].
  apply (smtp_success_means_accepted mailingWorld (Some (sampleSMTP "587")) (Some "Report")
    None true (Some [report]) (Some ["ann@example.org"])).
  reflexivity.
Defined.

(** ** The Twilio sender, case by case *)

Lemma SendTwilio_cases (w : World) (credentials : option TwilioCredentials)
    (message receiver : option string) :
  SendTwilioSmsMessage w credentials message receiver =
  match credentials, message, receiver with
  | None, _, _ => (Panicked, [])
  | Some _, None, _ => (Returned (Some twilioBodyMissing), [])
  | Some _, Some _, None => (Panicked, [])
  | Some tc, Some body, Some to =>
      (Returned (twilio_CreateMessage w (clientOf tc) (paramsOf tc body to)),
       [TwilioCreateMessage (clientOf tc) (paramsOf tc body to)])
  end.
Proof. destruct credentials, message, receiver; reflexivity. Qed.

(** X6 — The Twilio sender panics exactly when the credentials are missing,
    or the body is there and the receiver is missing, and it has called
    nothing when it panics.  It calls the provider exactly when
    credentials, body and receiver are all there, whatever their text (an
    empty body or receiver is sent on), and never more than once. *)
Theorem twilio_panics_and_calls
    (w : World) (credentials : option TwilioCredentials) (message receiver : option string) :
  let run := SendTwilioSmsMessage w credentials message receiver in
  (result run = Panicked ↔ credentials = None ∨ (message ≠ None ∧ receiver = None))
  ∧ (result run = Panicked → trace run = [])
  ∧ (network_calls (trace run) = 1%nat
     ↔ credentials ≠ None ∧ message ≠ None ∧ receiver ≠ None)
  ∧ (network_calls (trace run) ≤ 1)%nat.
Proof.
  intros run. unfold run. rewrite SendTwilio_cases.
  destruct credentials as [tc |], message as [body |], receiver as [to |];
    cbn; repeat split; try discriminate; try lia; try tauto; try congruence; eauto.
  all: try (intros [? | [? ?]]; congruence).
  all: try (intros (? & ? & ?); congruence).
  all: try (right; split; congruence).
Qed.

Lemma twilio_panics_and_calls_witness :
  emptyBodyRun
    = (Returned None,
       [TwilioCreateMessage (clientOf sampleTwilio)
          (paramsOf sampleTwilio EmptyString "+15550123")])
  ∧ network_calls (trace emptyBodyRun) = 1%nat.
Proof.
  split; [reflexivity |].
  apply (proj2 (proj1 (proj2 (proj2 (twilio_panics_and_calls offlineWorld (Some sampleTwilio)
    (Some EmptyString) (Some "+15550123")))))).
  repeat split; discriminate.
Defined.

(** X7 — A run of the Twilio sender that calls the provider asks it, as
    the account of the credentials (SID as user name, token as password),
    to create a message with the body given, from the sender phone number
    of the credentials, to the receiver given; the run is this one call and
    returns exactly the provider's error. *)
Theorem twilio_request_is_verbatim
    (w : World) (credentials : option TwilioCredentials) (message receiver : option string)
    (client : twilio.RestClient) (p : twilio.CreateMessageParams) :
  let run := SendTwilioSmsMessage w credentials message receiver in
  TwilioCreateMessage client p ∈ trace run →
  run = (Returned (twilio_CreateMessage w client p), [TwilioCreateMessage client p])
  ∧ twilio.Body p = message
  ∧ twilio.To p = receiver
  ∧ ∃ tc, credentials = Some tc
          ∧ twilio.From p = Some (SenderPhoneNumber tc)
          ∧ twilio.Username (twilio.params client) = AccountSID tc
          ∧ twilio.Password (twilio.params client) = AuthToken tc.
Proof.
  intros run. unfold run. rewrite SendTwilio_cases.
  destruct credentials as [tc |], message as [body |], receiver as [to |];
    intros Hin; try (inversion Hin; fail).
  apply list_elem_of_singleton in Hin. injection Hin as -> ->.
  repeat split. exists tc. repeat split.
Qed.

Lemma twilio_request_is_verbatim_witness :
  emptyBodyRun
    = (Returned None,
       [TwilioCreateMessage (clientOf sampleTwilio)
          (paramsOf sampleTwilio EmptyString "+15550123")])
  ∧ twilio.From (paramsOf sampleTwilio EmptyString "+15550123") = Some "+15550100".
Proof.
  split; [| reflexivity].
  refine (proj1 (twilio_request_is_verbatim offlineWorld (Some sampleTwilio)
    (Some EmptyString) (Some "+15550123") (clientOf sampleTwilio)
    (paramsOf sampleTwilio EmptyString "+15550123") _)).
  vm_compute. apply list_elem_of_here.
Defined.

(** The display name of the Twilio credentials has no effect: with
    any name the sender makes the same call with the same operands and
    returns the same. *)
Lemma sender_name_has_no_effect
    (w : World) (name : string) (tc : TwilioCredentials) (message receiver : option string) :
  SendTwilioSmsMessage w (Some (withSenderName name tc)) message receiver
  = SendTwilioSmsMessage w (Some tc) message receiver.
Proof. reflexivity. Qed.

(** X8 — The Twilio sender returns success only after the provider
    accepted the request: a run that returns [nil] made exactly one call,
    and the provider answered [nil] to it. *)
Theorem twilio_success_means_accepted
    (w : World) (credentials : option TwilioCredentials) (message receiver : option string) :
  let run := SendTwilioSmsMessage w credentials message receiver in
  result run = Returned None →
  ∃ client p, trace run = [TwilioCreateMessage client p]
              ∧ twilio_CreateMessage w client p = None.
Proof.
  intros run. unfold run. rewrite SendTwilio_cases.
  destruct credentials as [tc |], message as [body |], receiver as [to |]; try discriminate.
  intros [= Hnil]. eauto.
Qed.

Lemma twilio_success_means_accepted_witness :
  result emptyBodyRun = Returned None
  ∧ ∃ client p, trace emptyBodyRun = [TwilioCreateMessage client p]
                ∧ twilio_CreateMessage offlineWorld client p = None.
Proof.
  split; [reflexivity |].
  apply (twilio_success_means_accepted offlineWorld (Some sampleTwilio)
    (Some EmptyString) (Some "+15550123")).
  reflexivity.
Defined.

(** ** The Africa's Talking senders, case by case *)

Lemma SendAfricasTalking_cases (w : World) (x : Wire)
    (credentials : option AfricasTalkingCredentials) (message receiver : option string) :
  SendAfricasTalkingSmsMessage w x credentials message receiver =
  match message, credentials, receiver with
  | None, _, _ => (Returned (Some bodyMissing), [])
  | Some _, None, _ | Some _, _, None => (Panicked, [])
  | Some text, Some c, Some to =>
      match json_Marshal x (payloadOf c to text) with
      | inl err => (Returned (Some (marshalFailed w err)), [])
      | inr jsonPayload =>
          match http_NewRequest w "POST" endpoint (NewBuffer jsonPayload) with
          | inl err => (Returned (Some (requestFailed w err)), [])
          | inr base =>
              let req := withHeaders w "application/json" c base in
              match http_Client_Do w req with
              | inl err => (Returned (Some (transportFailed w err)), [HttpDo req (inl err)])
              | inr resp =>
                  (result (interpretResponse w x resp),
                   HttpDo req (inr resp)
                     :: (trace (interpretResponse w x resp) ++ [BodyClose resp])%list)
              end
          end
      end
  end.
Proof.
  destruct message as [text |], credentials as [c |], receiver as [to |]; try reflexivity.
  unfold SendAfricasTalkingSmsMessage. step.
  destruct (decide (Some text = None)) as [Hn | _]; [discriminate Hn |].
  change ("https://api.africastalking.com" +:+ "/version1/messaging") with endpoint.
  fold (payloadOf c to text).
  destruct (json_Marshal x (payloadOf c to text)) as [err | jsonPayload]; [reflexivity |].
  destruct (http_NewRequest w "POST" endpoint (NewBuffer jsonPayload)) as [err | base];
    [reflexivity |].
  fold (withHeaders w "application/json" c base).
  destruct (http_Client_Do w (withHeaders w "application/json" c base)) as [err | resp];
    [reflexivity |].
  destruct (interpretResponse w x resp) as [o t]. reflexivity.
Qed.

Lemma Variant_SendAfricasTalking_cases (w : World) (x : Variant.Wire)
    (credentials : option AfricasTalkingCredentials) (message receiver : option string) :
  Variant.SendAfricasTalkingSmsMessage w x credentials message receiver =
  match message, receiver with
  | None, _ => (Returned (Some bodyMissing), [])
  | Some _, None => (Panicked, [])
  | Some text, Some to =>
      if strings.Contains to "," then (Returned (Some multipleReceivers), [])
      else
        match credentials with
        | None => (Panicked, [])
        | Some c =>
            match http_NewRequest w "POST" endpoint
                    (NewReader (Variant.url_Values_Encode x (formOf c to text))) with
            | inl err => (Returned (Some (requestFailed w err)), [])
            | inr base =>
                let req := withHeaders w "application/x-www-form-urlencoded" c base in
                match http_Client_Do w req with
                | inl err =>
                    (Returned (Some (transportFailed w err)), [HttpDo req (inl err)])
                | inr resp =>
                    (result (Variant.interpretResponse w x resp),
                     HttpDo req (inr resp)
                       :: (trace (Variant.interpretResponse w x resp) ++ [BodyClose resp])%list)
                end
            end
        end
  end.
Proof.
  destruct message as [text |], receiver as [to |]; try reflexivity.
  unfold Variant.SendAfricasTalkingSmsMessage. step.
  destruct (decide (Some text = None)) as [Hn | _]; [discriminate Hn |].
  destruct (strings.Contains to ","); [reflexivity |].
  destruct credentials as [c |]; [| reflexivity].
  fold (formOf c to text).
  change "https://api.africastalking.com/version1/messaging" with endpoint.
  destruct (http_NewRequest w "POST" endpoint _) as [err | base]; [reflexivity |].
  fold (withHeaders w "application/x-www-form-urlencoded" c base).
  destruct (http_Client_Do w _) as [err | resp]; [reflexivity |].
  destruct (Variant.interpretResponse w x resp) as [o t]. reflexivity.
Qed.

Lemma transportFailed_text (w : World) (err : error) :
  transportFailed w err =
  wrapError ("Failed to execute http request: " +:+ fmt.Error (strconv_Quote w) err) err.
Proof.
  unfold transportFailed, fmt.Errorf. cbn [fmt.wrapped fmt.Sprintf fmt.verb].
  now rewrite append_empty_r.
Qed.

(** The events after the request, in a run that obtained a response. *)
Lemma interpretResponse_trace (w : World) (x : Wire) (resp : http.Response) :
  trace (interpretResponse w x resp) =
  [if bool_decide (http.StatusCode resp ≠ 201) && bool_decide (http.StatusCode resp ≠ 200)
   then BodyReadAll resp else BodyDecode resp].
Proof.
  rewrite interpretResponse_run.
  destruct (bool_decide _ && bool_decide _); [reflexivity |].
  destruct (json_Decode _ _); [reflexivity |].
  now destruct (strings.Contains _ _).
Qed.

Lemma Variant_interpretResponse_trace (w : World) (x : Variant.Wire) (resp : http.Response) :
  trace (Variant.interpretResponse w x resp) =
  [if bool_decide (http.StatusCode resp ≠ 201) && bool_decide (http.StatusCode resp ≠ 200)
   then BodyReadAll resp else BodyDecode resp].
Proof.
  rewrite Variant_interpretResponse_run.
  destruct (bool_decide _ && bool_decide _); [reflexivity |].
  destruct (Variant.json_Decode _ _); [reflexivity |].
  cbn zeta. now destruct (bool_decide _).
Qed.

(** X9 — The Africa's Talking sender of [MessagingUtilities.go] panics
    exactly when the body is there and the credentials or the receiver are
    missing.  The second version panics exactly when the body is there and
    either the receiver is missing, or the receiver has no comma and the
    credentials are missing.  Either has called nothing when it panics, and
    neither panics once the request is on its way. *)
Theorem africastalking_panics
    (w : World) (x : Wire) (vx : Variant.Wire)
    (credentials : option AfricasTalkingCredentials) (message receiver : option string) :
  let run := SendAfricasTalkingSmsMessage w x credentials message receiver in
  let vrun := Variant.SendAfricasTalkingSmsMessage w vx credentials message receiver in
  (result run = Panicked ↔ message ≠ None ∧ (credentials = None ∨ receiver = None))
  ∧ (result vrun = Panicked
     ↔ message ≠ None
       ∧ (receiver = None
          ∨ credentials = None
            ∧ ∃ to, receiver = Some to ∧ strings.Contains to "," = false))
  ∧ (result run = Panicked → trace run = [])
  ∧ (result vrun = Panicked → trace vrun = []).
Proof.
  intros run vrun. unfold run, vrun.
  rewrite SendAfricasTalking_cases, Variant_SendAfricasTalking_cases.
  assert (Hmain : ∀ resp, result (interpretResponse w x resp) ≠ Panicked).
  { intros resp. destruct (interpretResponse_quiet w x resp) as [_ [r ->]]. discriminate. }
  assert (Hvar : ∀ resp, result (Variant.interpretResponse w vx resp) ≠ Panicked).
  { intros resp. destruct (Variant_interpretResponse_quiet w vx resp) as [_ [r ->]].
    discriminate. }
  split; [| split; [| split]].
  - destruct message as [text |], credentials as [c |], receiver as [to |]; cbn [result fst].
    2-4: (split; [intros _; split; [discriminate | auto] | reflexivity]).
    2-5: (split; [discriminate | intros [Hm _]; now contradiction Hm]).
    split.
    + destruct (json_Marshal x _); [discriminate |].
      destruct (http_NewRequest w _ _ _); [discriminate |]. cbn zeta.
      destruct (http_Client_Do w _) as [err | resp]; [discriminate |].
      intros H. now apply Hmain in H.
    + intros [_ [H | H]]; discriminate H.
  - destruct message as [text |], receiver as [to |]; cbn [result fst].
    + destruct (strings.Contains to ",") eqn:Hcomma.
      * split; [discriminate |].
        intros [_ [H | (_ & to' & [= <-] & H)]]; [discriminate H | congruence].
      * destruct credentials as [c |].
        -- split; [| intros [_ [H | (H & _)]]; discriminate H].
           destruct (http_NewRequest w _ _ _); [discriminate |]. cbn zeta.
           destruct (http_Client_Do w _) as [err | resp]; [discriminate |].
           intros H. now apply Hvar in H.
        -- split; [| reflexivity]. intros _. split; [discriminate |].
           right. split; [reflexivity |]. eauto.
    + split; [| reflexivity]. intros _. split; [discriminate | now left].
    + split; [discriminate | intros [Hm _]; now contradiction Hm].
    + split; [discriminate | intros [Hm _]; now contradiction Hm].
  - destruct message as [text |], credentials as [c |], receiver as [to |];
      try reflexivity; try discriminate.
    destruct (json_Marshal x _); [discriminate |].
    destruct (http_NewRequest w _ _ _); [discriminate |]. cbn zeta.
    destruct (http_Client_Do w _) as [err | resp]; [discriminate |].
    intros H. now apply Hmain in H.
  - destruct message as [text |], receiver as [to |]; try reflexivity; try discriminate.
    destruct (strings.Contains to ","); [discriminate |].
    destruct credentials as [c |]; [| reflexivity].
    destruct (http_NewRequest w _ _ _); [discriminate |]. cbn zeta.
    destruct (http_Client_Do w _) as [err | resp]; [discriminate |].
    intros H. now apply Hvar in H.
Qed.

Lemma africastalking_panics_witness :
  SendAfricasTalkingSmsMessage offlineWorld (wireDecoding (inl garbledError)) None
    (Some "hello") (Some "+254700000001,+254700000002")
  = (Panicked, [])
  ∧ Variant.SendAfricasTalkingSmsMessage offlineWorld (variantWireDecoding (inl garbledError))
      None (Some "hello") (Some "+254700000001,+254700000002")
    = (Returned (Some multipleReceivers), [])
  ∧ result (Variant.SendAfricasTalkingSmsMessage offlineWorld
              (variantWireDecoding (inl garbledError)) None (Some "hello")
              (Some "+254700000000"))
    = Panicked.
Proof.
  split; [reflexivity |]. split; [reflexivity |].
  apply (proj2 (proj1 (proj2 (africastalking_panics offlineWorld
    (wireDecoding (inl garbledError)) (variantWireDecoding (inl garbledError))
    None (Some "hello") (Some "+254700000000"))))).
  split; [discriminate |]. right. split; [reflexivity |].
  exists "+254700000000". split; reflexivity.
Defined.

(** X10 — When the request cannot be executed, the Africa's Talking sender
    (of either version) returns the error that wraps the transport's error
    under the text "Failed to execute http request: "; the failed request
    is the only call of the run, and no response body is read or closed. *)
Theorem transport_failure_is_wrapped
    (w : World) (x : Wire) (vx : Variant.Wire)
    (credentials : option AfricasTalkingCredentials) (message receiver : option string)
    (run : M (option error)) (req : http.Request) (err : error) :
  run = SendAfricasTalkingSmsMessage w x credentials message receiver
  ∨ run = Variant.SendAfricasTalkingSmsMessage w vx credentials message receiver →
  HttpDo req (inl err) ∈ trace run →
  run = (Returned (Some (wrapError
           ("Failed to execute http request: " +:+ fmt.Error (strconv_Quote w) err) err)),
         [HttpDo req (inl err)]).
Proof.
  intros Hrun Hin. rewrite <- transportFailed_text.
  destruct Hrun as [-> | ->].
  - rewrite SendAfricasTalking_cases in Hin |- *.
    destruct message as [text |], credentials as [c |], receiver as [to |];
      try (inversion Hin; fail).
    destruct (json_Marshal x _); [inversion Hin |].
    destruct (http_NewRequest w _ _ _); [inversion Hin |]. cbn zeta in *.
    destruct (http_Client_Do w _) as [err' | resp].
    + apply list_elem_of_singleton in Hin. injection Hin as -> ->. reflexivity.
    + exfalso. unfold trace at 1 in Hin. cbn [snd] in Hin.
      rewrite interpretResponse_trace in Hin.
      apply elem_of_cons in Hin as [Hin | Hin]; [discriminate Hin |].
      destruct (bool_decide _ && bool_decide _);
        repeat (apply elem_of_cons in Hin as [Hin | Hin]; [discriminate Hin |]);
        inversion Hin.
  - rewrite Variant_SendAfricasTalking_cases in Hin |- *.
    destruct message as [text |], receiver as [to |]; try (inversion Hin; fail).
    destruct (strings.Contains to ","); [inversion Hin |].
    destruct credentials as [c |]; [| inversion Hin].
    destruct (http_NewRequest w _ _ _); [inversion Hin |]. cbn zeta in *.
    destruct (http_Client_Do w _) as [err' | resp].
    + apply list_elem_of_singleton in Hin. injection Hin as -> ->. reflexivity.
    + exfalso. unfold trace at 1 in Hin. cbn [snd] in Hin.
      rewrite Variant_interpretResponse_trace in Hin.
      apply elem_of_cons in Hin as [Hin | Hin]; [discriminate Hin |].
      destruct (bool_decide _ && bool_decide _);
        repeat (apply elem_of_cons in Hin as [Hin | Hin]; [discriminate Hin |]);
        inversion Hin.
Qed.

Lemma transport_failure_is_wrapped_witness :
  offlineRun
  = (Returned (Some (wrapError
       "Failed to execute http request: dial tcp: lookup api.africastalking.com: no such host"
       unreachable)),
     [HttpDo sampleSent (inl unreachable)]).
Proof.
  apply (transport_failure_is_wrapped offlineWorld (wireDecoding (inl garbledError))
    (variantWireDecoding (inl garbledError)) (Some sampleCredentials) (Some "hello")
    (Some "+254700000000") offlineRun sampleSent unreachable).
  - left. reflexivity.
  - vm_compute. apply list_elem_of_here.
Defined.

Lemma network_calls_cons (e : event) (t : list event) :
  network_calls (e :: t)
  = ((if is_network_call e then 1 else 0) + network_calls t)%nat.
Proof.
  unfold network_calls. rewrite filter_cons.
  destruct (is_network_call e); [rewrite decide_True by done | rewrite decide_False by done];
    reflexivity.
Qed.

Ltac calls := cbn -[network_calls]; rewrite ?network_calls_cons; cbn; lia.

(** X11 — In a run of the Africa's Talking sender (of either version) that
    obtained a response, the request is the only network call and the body
    of the response is read exactly once, between the request and the
    close: as a whole by [io.ReadAll] when the status is neither 200 nor
    201, by the JSON decoder when it is 200 or 201. *)
Theorem response_is_read_once
    (w : World) (x : Wire) (vx : Variant.Wire)
    (credentials : option AfricasTalkingCredentials) (message receiver : option string)
    (run : M (option error)) (req : http.Request) (resp : http.Response) :
  run = SendAfricasTalkingSmsMessage w x credentials message receiver
  ∨ run = Variant.SendAfricasTalkingSmsMessage w vx credentials message receiver →
  HttpDo req (inr resp) ∈ trace run →
  (http.StatusCode resp ≠ 200 → http.StatusCode resp ≠ 201 →
   trace run = [HttpDo req (inr resp); BodyReadAll resp; BodyClose resp])
  ∧ (http.StatusCode resp = 200 ∨ http.StatusCode resp = 201 →
     trace run = [HttpDo req (inr resp); BodyDecode resp; BodyClose resp])
  ∧ network_calls (trace run) = 1%nat.
Proof.
  intros Hrun Hin.
  assert (Htrace : trace run =
    [HttpDo req (inr resp);
     if bool_decide (http.StatusCode resp ≠ 201) && bool_decide (http.StatusCode resp ≠ 200)
     then BodyReadAll resp else BodyDecode resp;
     BodyClose resp]).
  { destruct Hrun as [-> | ->].
    - apply obtained_run in Hin as (-> & _). unfold trace at 1. cbn [snd].
      now rewrite interpretResponse_trace.
    - apply Variant_obtained_run in Hin as (-> & _). unfold trace at 1. cbn [snd].
      now rewrite Variant_interpretResponse_trace. }
  rewrite Htrace. split; [| split].
  - intros H200 H201. now rewrite !bool_decide_eq_true_2.
  - intros [-> | ->]; reflexivity.
  - rewrite !network_calls_cons. now destruct (bool_decide _ && bool_decide _).
Qed.

Lemma response_is_read_once_witness :
  trace rejectedRun =
    [HttpDo sampleSent (inr (responseOf 401 "Invalid apiKey"));
     BodyReadAll (responseOf 401 "Invalid apiKey");
     BodyClose (responseOf 401 "Invalid apiKey")]
  ∧ trace variantBilledRun =
      [HttpDo sampleSentForm (inr (responseOf 201 billedBody));
       BodyDecode (responseOf 201 billedBody);
       BodyClose (responseOf 201 billedBody)].
Proof.
  split.
  - refine (proj1 (response_is_read_once rejectingWorld
      (wireDecoding (inl (errorString "invalid character 'I' looking for beginning of value")))
      listlessWire (Some sampleCredentials) (Some "hello") (Some "+254700000000")
      rejectedRun sampleSent (responseOf 401 "Invalid apiKey") _ _) _ _).
    + left. reflexivity.
    + vm_compute. apply list_elem_of_here.
    + vm_compute. discriminate.
    + vm_compute. discriminate.
  - refine (proj1 (proj2 (response_is_read_once billingWorld
      (wireDecoding (inl garbledError))
      listlessWire (Some sampleCredentials) (Some "hello") (Some "+254700000000")
      variantBilledRun sampleSentForm (responseOf 201 billedBody) _ _)) _).
    + right. reflexivity.
    + vm_compute. apply list_elem_of_here.
    + right. reflexivity.
Defined.

(** X12 — No sender calls the network twice: whatever it is given and
    whatever the world answers, a run of the SMTP sender or of the Africa's
    Talking sender of either version holds at most one network call. *)
Theorem no_sender_calls_twice
    (w : World) (x : Wire) (vx : Variant.Wire)
    (smtp : option SMTPCredentials) (subject body : option string) (isHtml : bool)
    (attachments : option (list EmailAttachment)) (receivers : option (list string))
    (credentials : option AfricasTalkingCredentials) (message receiver : option string) :
  (network_calls
     (trace (SendSMTPEmailMessage w smtp subject body isHtml attachments receivers)) ≤ 1)%nat
  ∧ (network_calls
       (trace (SendAfricasTalkingSmsMessage w x credentials message receiver)) ≤ 1)%nat
  ∧ (network_calls
       (trace (Variant.SendAfricasTalkingSmsMessage w vx credentials message receiver))
     ≤ 1)%nat.
Proof.
  split; [| split].
  - destruct smtp as [c |]; [| calls].
    destruct (buildMessage_cases c subject body isHtml attachments receivers)
      as [(to & m & -> & _ & Hb & _) | [_ Hb]].
    + rewrite (SendSMTP_built w _ _ _ _ _ _ _ Hb).
      destruct (strconv.Atoi (Port c)); calls.
    + rewrite (SendSMTP_unbuilt w _ _ _ _ _ _ Hb). cbn. lia.
  - rewrite SendAfricasTalking_cases.
    destruct message as [text |], credentials as [c |], receiver as [to |];
      try (calls).
    destruct (json_Marshal x _); [calls |].
    destruct (http_NewRequest w _ _ _); [calls |]. cbn zeta.
    destruct (http_Client_Do w _) as [err | resp]; [calls |].
    unfold trace at 1. cbn [snd]. rewrite interpretResponse_trace.
    destruct (bool_decide _ && bool_decide _); calls.
  - rewrite Variant_SendAfricasTalking_cases.
    destruct message as [text |], receiver as [to |]; try (calls).
    destruct (strings.Contains to ","); [calls |].
    destruct credentials as [c |]; [| calls].
    destruct (http_NewRequest w _ _ _); [calls |]. cbn zeta.
    destruct (http_Client_Do w _) as [err | resp]; [calls |].
    unfold trace at 1. cbn [snd]. rewrite Variant_interpretResponse_trace.
    destruct (bool_decide _ && bool_decide _); calls.
Qed.

(** ** Success and the provider's verdict *)

Lemma Compare_empty_zero (s : string) : strings.Compare EmptyString s = 0 ↔ s = EmptyString.
Proof. destruct s; cbn; split; intros H; try reflexivity; discriminate H. Qed.

Lemma checkRecipients_single (w : World) (r : Variant.atSmsResponseRecipient) :
  (Variant.checkRecipients w [r] = None ↔ Variant.status r = EmptyString)
  ∧ (Variant.checkRecipients w [r] = Some (errorString "Message could not be sent")
     ↔ Variant.status r ≠ EmptyString).
Proof.
  cbn [Variant.checkRecipients].
  destruct (decide (strings.Compare EmptyString (Variant.status r) = 0)) as [Hz | Hnz].
  - rewrite bool_decide_eq_false_2 by tauto. apply Compare_empty_zero in Hz.
    split; split; try discriminate; try tauto; try (intros _; reflexivity).
  - rewrite bool_decide_eq_true_2 by exact Hnz.
    assert (Variant.status r ≠ EmptyString) by (intros H; apply Hnz, Compare_empty_zero, H).
    split; split; try discriminate; try tauto; try (intros _; reflexivity).
Qed.

(** X13 — The Africa's Talking sender of [MessagingUtilities.go] returns
    success only for a confirmed send: a run that returns [nil] made the
    request, obtained a response with status 200 or 201, decoded its body
    and found no "Total Cost: KES 0.00" in the status text. *)
Theorem success_means_confirmed
    (w : World) (x : Wire)
    (credentials : option AfricasTalkingCredentials) (message receiver : option string) :
  let run := SendAfricasTalkingSmsMessage w x credentials message receiver in
  result run = Returned None →
  ∃ req resp atResp,
    trace run = [HttpDo req (inr resp); BodyDecode resp; BodyClose resp]
    ∧ (http.StatusCode resp = 200 ∨ http.StatusCode resp = 201)
    ∧ json_Decode x (http.Body resp) = inr atResp
    ∧ strings.Contains (Message (SMSMessageData atResp)) costMarker = false.
Proof.
  intros run. unfold run. rewrite SendAfricasTalking_cases.
  destruct message as [text |], credentials as [c |], receiver as [to |]; try discriminate.
  destruct (json_Marshal x _); [discriminate |].
  destruct (http_NewRequest w _ _ _); [discriminate |]. cbn zeta.
  destruct (http_Client_Do w _) as [err | resp]; [discriminate |].
  unfold result, trace. cbn [fst snd]. rewrite interpretResponse_run.
  destruct (bool_decide (http.StatusCode resp ≠ 201)) eqn:H201; [
    destruct (bool_decide (http.StatusCode resp ≠ 200)) eqn:H200; [discriminate |] |].
  all: cbn [andb].
  all: destruct (json_Decode x (http.Body resp)) as [err | atResp] eqn:Hdec; [discriminate |].
  all: destruct (strings.Contains _ costMarker) eqn:Hmarker; [discriminate |].
  all: intros _; eexists _, resp, atResp; repeat split; try reflexivity; try assumption.
  - left. apply bool_decide_eq_false in H200. lia.
  - right. apply bool_decide_eq_false in H201. lia.
Qed.

Lemma success_means_confirmed_witness :
  result billedRun = Returned None
  ∧ ∃ req resp atResp,
      trace billedRun = [HttpDo req (inr resp); BodyDecode resp; BodyClose resp]
      ∧ (http.StatusCode resp = 200 ∨ http.StatusCode resp = 201)
      ∧ json_Decode (wireDecoding (inr (statusTextOf billedText))) (http.Body resp)
        = inr atResp
      ∧ strings.Contains (Message (SMSMessageData atResp)) costMarker = false.
Proof.
  split; [reflexivity |].
  apply (success_means_confirmed billingWorld (wireDecoding (inr (statusTextOf billedText)))
    (Some sampleCredentials) (Some "hello") (Some "+254700000000")).
  reflexivity.
Defined.

(** X14 — In the second version, after a response with status 200 or 201
    whose body decodes, the decoder leaving the unexported field [status]
    of every recipient empty (as [encoding/json] does), the verdict is the
    count of the recipient list alone: success exactly when one recipient
    is listed, "Sent recipient list is empty." exactly when the list does
    not hold one entry (also when it holds several); "Message could not
    be sent" is never returned. *)
Theorem variant_verdict_by_recipients
    (w : World) (vx : Variant.Wire)
    (credentials : option AfricasTalkingCredentials) (message receiver : option string)
    (req : http.Request) (resp : http.Response) (atResp : Variant.atSmsResponse) :
  let run := Variant.SendAfricasTalkingSmsMessage w vx credentials message receiver in
  let recipients := Variant.Recipients (Variant.SMSMessageData atResp) in
  HttpDo req (inr resp) ∈ trace run →
  http.StatusCode resp = 200 ∨ http.StatusCode resp = 201 →
  Variant.json_Decode vx (http.Body resp) = inr atResp →
  Forall (fun r => Variant.status r = EmptyString) recipients →
  (result run = Returned None ↔ length recipients = 1%nat)
  ∧ (result run = Returned (Some (errorString "Sent recipient list is empty."))
     ↔ length recipients ≠ 1%nat)
  ∧ result run ≠ Returned (Some (errorString "Message could not be sent")).
Proof.
  intros run recipients Hin Hcode Hdec Hempty.
  assert (Hbranch :
    bool_decide (http.StatusCode resp ≠ 201) && bool_decide (http.StatusCode resp ≠ 200)
    = false).
  { destruct Hcode as [-> | ->]; reflexivity. }
  unfold run. apply Variant_obtained_run in Hin as (-> & _).
  unfold result. cbn [fst].
  rewrite Variant_interpretResponse_run, Hbranch, Hdec. cbn zeta. fold recipients.
  destruct recipients as [| r [| r' more]].
  - rewrite bool_decide_eq_true_2 by (cbn; lia). cbn [fst length].
    split; [| split]; [split | split |]; try discriminate; try lia; try reflexivity.
    all: try (intros _; lia).
  - rewrite bool_decide_eq_false_2 by (cbn; lia). cbn [fst length].
    destruct (checkRecipients_single w r) as [Hnone _].
    inversion Hempty as [| ? ? Hr _]; subst.
    apply Hnone in Hr. rewrite Hr.
    split; [| split]; [split | split |]; try discriminate; try lia; try reflexivity.
  - rewrite bool_decide_eq_true_2 by (cbn; lia). cbn [fst length].
    split; [| split]; [split | split |]; try discriminate; try lia; try reflexivity.
    all: try (intros _; lia).
Qed.

Lemma variant_verdict_by_recipients_witness :
  result variantUnbilledRun = Returned None
  ∧ result variantBilledRun = Returned (Some (errorString "Sent recipient list is empty.")).
Proof.
  split.
  - refine (proj2 (proj1 (variant_verdict_by_recipients listingWorld listingWire
      (Some sampleCredentials) (Some "hello") (Some "+254700000000")
      sampleSentForm (responseOf 200 listingBody)
      (variantStatusTextOf unbilledText [{| Variant.status := EmptyString |}]) _ _ _ _)) _).
    + vm_compute. apply list_elem_of_here.
    + left. reflexivity.
    + reflexivity.
    + repeat constructor.
    + reflexivity.
  - refine (proj2 (proj1 (proj2 (variant_verdict_by_recipients billingWorld listlessWire
      (Some sampleCredentials) (Some "hello") (Some "+254700000000")
      sampleSentForm (responseOf 201 billedBody)
      (variantStatusTextOf billedText []) _ _ _ _))) _).
    + vm_compute. apply list_elem_of_here.
    + right. reflexivity.
    + reflexivity.
    + constructor.
    + cbn. lia.
Defined.

(** ** The request that is issued *)

(** The three header fields on a request, and everything else as it was. *)
Lemma withHeaders_request (w : World) (contentType : string)
    (c : AfricasTalkingCredentials) (base : http.Request) :
  let canon := textproto_CanonicalMIMEHeaderKey w in
  let req := withHeaders w contentType c base in
  http.Method req = http.Method base
  ∧ http.URL req = http.URL base
  ∧ http.ReqBody req = http.ReqBody base
  ∧ http.Header req !! canon "apiKey" = Some [ApiKey c]
  ∧ (canon "Accept" ≠ canon "apiKey" →
     http.Header req !! canon "Accept" = Some ["application/json"])
  ∧ (canon "Content-Type" ≠ canon "Accept" → canon "Content-Type" ≠ canon "apiKey" →
     http.Header req !! canon "Content-Type" = Some [contentType])
  ∧ (∀ k, k ≠ canon "apiKey" → k ≠ canon "Accept" → k ≠ canon "Content-Type" →
       http.Header req !! k = http.Header base !! k).
Proof.
  intros canon req. unfold req, withHeaders, http.Header_Set. cbn [http.Method http.URL
    http.ReqBody http.Header]. fold canon.
  repeat split.
  - now simplify_map_eq.
  - intros H. now simplify_map_eq.
  - intros H1 H2. now simplify_map_eq.
  - intros k H1 H2 H3. now simplify_map_eq.
Qed.

(** Any request of a run of the first version was built from the body,
    the receiver and the credentials given. *)
Lemma issued_request (w : World) (x : Wire)
    (credentials : option AfricasTalkingCredentials) (message receiver : option string)
    (req : http.Request) (res : error + http.Response) :
  HttpDo req res ∈ trace (SendAfricasTalkingSmsMessage w x credentials message receiver) →
  ∃ c to text jsonPayload base,
    credentials = Some c ∧ receiver = Some to ∧ message = Some text
    ∧ json_Marshal x (payloadOf c to text) = inr jsonPayload
    ∧ http_NewRequest w "POST" endpoint (NewBuffer jsonPayload) = inr base
    ∧ req = withHeaders w "application/json" c base
    ∧ res = http_Client_Do w req.
Proof.
  rewrite SendAfricasTalking_cases.
  destruct message as [text |], credentials as [c |], receiver as [to |];
    intros Hin; try (inversion Hin; fail).
  destruct (json_Marshal x _) as [err | jsonPayload] eqn:Hm; [inversion Hin |].
  destruct (http_NewRequest w _ _ _) as [err | base] eqn:Hn; [inversion Hin |].
  cbn zeta in Hin.
  destruct (http_Client_Do w _) as [err | resp] eqn:Hdo.
  - apply list_elem_of_singleton in Hin. injection Hin as -> ->.
    exists c, to, text, jsonPayload, base. repeat split; try assumption. now rewrite Hdo.
  - unfold trace at 1 in Hin. cbn [snd] in Hin. rewrite interpretResponse_trace in Hin.
    apply elem_of_cons in Hin as [Hin | Hin].
    + injection Hin as -> ->.
      exists c, to, text, jsonPayload, base. repeat split; try assumption. now rewrite Hdo.
    + exfalso. destruct (bool_decide _ && bool_decide _);
        repeat (apply elem_of_cons in Hin as [Hin | Hin]; [discriminate Hin |]);
        inversion Hin.
Qed.

Lemma Variant_issued_request (w : World) (x : Variant.Wire)
    (credentials : option AfricasTalkingCredentials) (message receiver : option string)
    (req : http.Request) (res : error + http.Response) :
  HttpDo req res
    ∈ trace (Variant.SendAfricasTalkingSmsMessage w x credentials message receiver) →
  ∃ c to text base,
    credentials = Some c ∧ receiver = Some to ∧ message = Some text
    ∧ strings.Contains to "," = false
    ∧ http_NewRequest w "POST" endpoint
        (NewReader (Variant.url_Values_Encode x (formOf c to text))) = inr base
    ∧ req = withHeaders w "application/x-www-form-urlencoded" c base
    ∧ res = http_Client_Do w req.
Proof.
  rewrite Variant_SendAfricasTalking_cases.
  destruct message as [text |], receiver as [to |]; intros Hin; try (inversion Hin; fail).
  destruct (strings.Contains to ",") eqn:Hcomma; [inversion Hin |].
  destruct credentials as [c |]; [| inversion Hin].
  destruct (http_NewRequest w _ _ _) as [err | base] eqn:Hn; [inversion Hin |].
  cbn zeta in Hin.
  destruct (http_Client_Do w _) as [err | resp] eqn:Hdo.
  - apply list_elem_of_singleton in Hin. injection Hin as -> ->.
    exists c, to, text, base. repeat split; try assumption. now rewrite Hdo.
  - unfold trace at 1 in Hin. cbn [snd] in Hin. rewrite Variant_interpretResponse_trace in Hin.
    apply elem_of_cons in Hin as [Hin | Hin].
    + injection Hin as -> ->.
      exists c, to, text, base. repeat split; try assumption. now rewrite Hdo.
    + exfalso. destruct (bool_decide _ && bool_decide _);
        repeat (apply elem_of_cons in Hin as [Hin | Hin]; [discriminate Hin |]);
        inversion Hin.
Qed.

(** X15 — Any request that the sender of [MessagingUtilities.go] issues is
    the POST request to the messaging endpoint whose body is the JSON of
    user name, receiver, body text and sender ID, exactly as given; the
    sender leaves method, URL and body as built, sets the header field
    "apiKey" to the API key of the credentials, "Accept" and "Content-Type"
    to "application/json" (when the canonical forms of the three names
    differ), and leaves every other header field alone. *)
Theorem request_carries_payload_and_key
    (w : World) (x : Wire)
    (credentials : option AfricasTalkingCredentials) (message receiver : option string)
    (req : http.Request) (res : error + http.Response) :
  let canon := textproto_CanonicalMIMEHeaderKey w in
  HttpDo req res ∈ trace (SendAfricasTalkingSmsMessage w x credentials message receiver) →
  ∃ c to text jsonPayload base,
    credentials = Some c ∧ receiver = Some to ∧ message = Some text
    ∧ json_Marshal x
        {| atSmsRequest_Username := Username c;
           atSmsRequest_To := to;
           atSmsRequest_Message := text;
           atSmsRequest_From := SenderID c |} = inr jsonPayload
    ∧ http_NewRequest w "POST" "https://api.africastalking.com/version1/messaging"
        (NewBuffer jsonPayload) = inr base
    ∧ http.Method req = http.Method base
    ∧ http.URL req = http.URL base
    ∧ http.ReqBody req = http.ReqBody base
    ∧ http.Header req !! canon "apiKey" = Some [ApiKey c]
    ∧ (canon "Accept" ≠ canon "apiKey" →
       http.Header req !! canon "Accept" = Some ["application/json"])
    ∧ (canon "Content-Type" ≠ canon "Accept" → canon "Content-Type" ≠ canon "apiKey" →
       http.Header req !! canon "Content-Type" = Some ["application/json"])
    ∧ (∀ k, k ≠ canon "apiKey" → k ≠ canon "Accept" → k ≠ canon "Content-Type" →
         http.Header req !! k = http.Header base !! k).
Proof.
  intros canon Hin.
  apply issued_request in Hin as (c & to & text & jsonPayload & base
    & -> & -> & -> & Hm & Hn & -> & _).
  exists c, to, text, jsonPayload, base.
  do 3 (split; [reflexivity |]). split; [exact Hm |]. split; [exact Hn |].
  apply withHeaders_request.
Qed.

Lemma request_carries_payload_and_key_witness :
  http.Header sampleSent !! "apiKey" = Some ["key"]
  ∧ http.Header sampleSent !! "Content-Type" = Some ["application/json"]
  ∧ http.URL sampleSent = "https://api.africastalking.com/version1/messaging".
Proof.
  destruct (request_carries_payload_and_key offlineWorld (wireDecoding (inl garbledError))
    (Some sampleCredentials) (Some "hello") (Some "+254700000000")
    sampleSent (inl unreachable))
    as (c & to & text & jsonPayload & base
        & [= <-] & _ & _ & _ & [= <-] & _ & Hurl & _ & Hkey & _ & Hct & _).
  - vm_compute. apply list_elem_of_here.
  - split; [exact Hkey |]. split; [| exact Hurl].
    apply Hct; discriminate.
Defined.

(** X16 — Any request that the second version issues is the POST request
    to the messaging endpoint whose body is the encoding of a form with
    exactly the fields "username", "to", "from" and "message", each with
    the one value given; its receiver holds no comma; the sender leaves
    method, URL and body as built, sets the header field "apiKey" to the
    API key of the credentials, "Accept" to "application/json" and
    "Content-Type" to "application/x-www-form-urlencoded" (when the
    canonical forms of the three names differ), and leaves every other
    header field alone. *)
Theorem variant_request_carries_form
    (w : World) (vx : Variant.Wire)
    (credentials : option AfricasTalkingCredentials) (message receiver : option string)
    (req : http.Request) (res : error + http.Response) :
  let canon := textproto_CanonicalMIMEHeaderKey w in
  HttpDo req res
    ∈ trace (Variant.SendAfricasTalkingSmsMessage w vx credentials message receiver) →
  ∃ c to text (form : gmap string (list string)) base,
    credentials = Some c ∧ receiver = Some to ∧ message = Some text
    ∧ strings.Contains to "," = false
    ∧ form !! "username" = Some [Username c]
    ∧ form !! "to" = Some [to]
    ∧ form !! "from" = Some [SenderID c]
    ∧ form !! "message" = Some [text]
    ∧ dom form = ({["username"; "to"; "from"; "message"]} : gset string)
    ∧ http_NewRequest w "POST" "https://api.africastalking.com/version1/messaging"
        (NewReader (Variant.url_Values_Encode vx form)) = inr base
    ∧ res = http_Client_Do w req
    ∧ http.Method req = http.Method base
    ∧ http.URL req = http.URL base
    ∧ http.ReqBody req = http.ReqBody base
    ∧ http.Header req !! canon "apiKey" = Some [ApiKey c]
    ∧ (canon "Accept" ≠ canon "apiKey" →
       http.Header req !! canon "Accept" = Some ["application/json"])
    ∧ (canon "Content-Type" ≠ canon "Accept" → canon "Content-Type" ≠ canon "apiKey" →
       http.Header req !! canon "Content-Type" = Some ["application/x-www-form-urlencoded"])
    ∧ (∀ k, k ≠ canon "apiKey" → k ≠ canon "Accept" → k ≠ canon "Content-Type" →
         http.Header req !! k = http.Header base !! k).
Proof.
  intros canon Hin.
  apply Variant_issued_request in Hin as (c & to & text & base
    & -> & -> & -> & Hcomma & Hn & -> & Hres).
  exists c, to, text, (formOf c to text), base.
  do 3 (split; [reflexivity |]). split; [exact Hcomma |].
  do 4 (split; [reflexivity |]).
  split; [unfold formOf, Variant.Values_Set; rewrite !dom_insert_L, dom_empty_L; set_solver |].
  split; [exact Hn |]. split; [exact Hres |].
  apply withHeaders_request.
Qed.

Lemma variant_request_carries_form_witness :
  trace variantBilledRun =
    [HttpDo sampleSentForm (inr (responseOf 201 billedBody));
     BodyDecode (responseOf 201 billedBody);
     BodyClose (responseOf 201 billedBody)]
  ∧ http.Method sampleSentForm = "POST"
  ∧ http.URL sampleSentForm = "https://api.africastalking.com/version1/messaging"
  ∧ ∃ form : gmap string (list string),
      form !! "to" = Some ["+254700000000"]
      ∧ form !! "message" = Some ["hello"]
      ∧ form !! "username" = Some ["sandbox"]
      ∧ form !! "from" = Some ["INFO"]
      ∧ dom form = ({["username"; "to"; "from"; "message"]} : gset string).
Proof.
  split; [reflexivity |].
  destruct (variant_request_carries_form billingWorld listlessWire (Some sampleCredentials)
    (Some "hello") (Some "+254700000000") sampleSentForm
    (inr (responseOf 201 billedBody)))
    as (c & to & text & form & base & [= <-] & [= <-] & [= <-] & _
        & Hu & Ht & Hf & Hm & Hdom & [= <-] & _ & Hmethod & Hurl & _).
  - vm_compute. apply list_elem_of_here.
  - split; [exact Hmethod |]. split; [exact Hurl |].
    exists form. repeat split; assumption.
Defined.

(** X17 — The senders look at nothing in the body and the receiver but
    their presence and, in the second version, a comma in the receiver:
    the first version issues its request exactly when body, receiver and
    credentials are there and payload and request can be built, also for
    an empty body or receiver and for a receiver with commas; the second
    version does so exactly when, besides, the receiver holds no comma. *)
Theorem request_issued_iff_built
    (w : World) (x : Wire) (vx : Variant.Wire)
    (credentials : option AfricasTalkingCredentials) (message receiver : option string) :
  ((∃ req res,
      HttpDo req res ∈ trace (SendAfricasTalkingSmsMessage w x credentials message receiver))
   ↔ ∃ c to text jsonPayload base,
       credentials = Some c ∧ receiver = Some to ∧ message = Some text
       ∧ json_Marshal x (payloadOf c to text) = inr jsonPayload
       ∧ http_NewRequest w "POST" endpoint (NewBuffer jsonPayload) = inr base)
  ∧ ((∃ req res,
        HttpDo req res
          ∈ trace (Variant.SendAfricasTalkingSmsMessage w vx credentials message receiver))
     ↔ ∃ c to text base,
         credentials = Some c ∧ receiver = Some to ∧ message = Some text
         ∧ strings.Contains to "," = false
         ∧ http_NewRequest w "POST" endpoint
             (NewReader (Variant.url_Values_Encode vx (formOf c to text))) = inr base).
Proof.
  split; split.
  - intros (req & res & Hin).
    apply issued_request in Hin as (c & to & text & jsonPayload & base
      & -> & -> & -> & Hm & Hn & _).
    exists c, to, text, jsonPayload, base. repeat split; assumption.
  - intros (c & to & text & jsonPayload & base & -> & -> & -> & Hm & Hn).
    rewrite SendAfricasTalking_cases, Hm, Hn. cbn zeta.
    destruct (http_Client_Do w _) as [err | resp]; eexists _, _; apply list_elem_of_here.
  - intros (req & res & Hin).
    apply Variant_issued_request in Hin as (c & to & text & base
      & -> & -> & -> & Hcomma & Hn & _).
    exists c, to, text, base. repeat split; assumption.
  - intros (c & to & text & base & -> & -> & -> & Hcomma & Hn).
    rewrite Variant_SendAfricasTalking_cases, Hcomma, Hn. cbn zeta.
    destruct (http_Client_Do w _) as [err | resp]; eexists _, _; apply list_elem_of_here.
Qed.

Lemma request_issued_iff_built_witness :
  (∃ req res,
     HttpDo req res
       ∈ trace (SendAfricasTalkingSmsMessage offlineWorld (wireDecoding (inl garbledError))
                  (Some sampleCredentials) (Some EmptyString)
                  (Some "+254700000001,+254700000002")))
  ∧ ¬ (∃ req res,
         HttpDo req res
           ∈ trace (Variant.SendAfricasTalkingSmsMessage offlineWorld
                      (variantWireDecoding (inl garbledError))
                      (Some sampleCredentials) (Some EmptyString)
                      (Some "+254700000001,+254700000002"))).
Proof.
  split.
  - apply (proj2 (proj1 (request_issued_iff_built offlineWorld
      (wireDecoding (inl garbledError)) (variantWireDecoding (inl garbledError))
      (Some sampleCredentials) (Some EmptyString) (Some "+254700000001,+254700000002")))).
    eexists _, _, _, _, _. repeat split; reflexivity.
  - intros H.
    apply (proj1 (proj2 (request_issued_iff_built offlineWorld
      (wireDecoding (inl garbledError)) (variantWireDecoding (inl garbledError))
      (Some sampleCredentials) (Some EmptyString) (Some "+254700000001,+254700000002"))))
      in H as (c & to & text & base & _ & [= <-] & _ & Hcomma & _).
    discriminate Hcomma.
Defined.
